(** * Daily delivery earnings: the earnings calculator, the record store
      and the dashboard, embedded from the SQL migration and [Index.tsx]. *)

From Stdlib Require Import ZArith List Bool Lia String QArith Qround Sorted.
From Stdlib Require Import Permutation Ascii.
Import ListNotations.
Open Scope Z_scope.

(** ** Errors raised by the storage layer (PostgreSQL). *)

Inductive sql_error : Type :=
| numeric_value_out_of_range   (* 22003: integer out of range *)
| unique_violation             (* 23505: UNIQUE or PRIMARY KEY *)
| insufficient_privilege       (* 42501: row-level security WITH CHECK *)
| invalid_text_representation. (* 22P02: invalid input syntax for type integer *)

Inductive result (A : Type) : Type :=
| Ok (a : A)
| Err (e : sql_error).
Arguments Ok {A} a.
Arguments Err {A} e.

Definition bind {A B : Type} (r : result A) (k : A -> result B) : result B :=
  match r with
  | Ok a => k a
  | Err e => Err e
  end.

Notation "x <- e ;; k" := (bind e (fun x => k))
  (at level 61, e at next level, right associativity).

(** ** SQL [INTEGER]: 32-bit signed, every operation checked.

    PostgreSQL's [int4] operators do not wrap around: a result outside
    the range aborts the statement with "integer out of range". *)

Module Int4.

Definition min_int : Z := -2147483648.
Definition max_int : Z := 2147483647.

Definition in_range (x : Z) : bool := (min_int <=? x) && (x <=? max_int).

Definition checked (x : Z) : result Z :=
  if in_range x then Ok x else Err numeric_value_out_of_range.

Definition add (a b : Z) : result Z := checked (a + b).
Definition sub (a b : Z) : result Z := checked (a - b).
Definition mul (a b : Z) : result Z := checked (a * b).

End Int4.

Infix "+!" := Int4.add (at level 50, left associativity).
Infix "-!" := Int4.sub (at level 50, left associativity).
Infix "*!" := Int4.mul (at level 40, left associativity).

(** ** The earnings calculator: [public.calculate_earnings]. *)

Module Calculator.

(** The row of the function's [RETURNS TABLE]. *)
Record earnings : Type := mk_earnings {
  cash_earnings : Z;
  online_earnings : Z;
  bonus_earnings : Z;
  total_earnings : Z
}.

(** [expected_cash := CASE WHEN cash_orders <= 30 THEN cash_orders * 55
                          ELSE (30 * 55) + ((cash_orders - 30) * 75) END] *)
Definition expected_cash_expr (cash_orders : Z) : result Z :=
  if cash_orders <=? 30 then cash_orders *! 55
  else
    a <- 30 *! 55 ;;
    b <- cash_orders -! 30 ;;
    c <- b *! 75 ;;
    a +! c.

(** [calc_online_earnings := CASE
      WHEN (total_orders - cash_orders) <= 30
        THEN (total_orders - cash_orders) * 55
      ELSE (30 * 55) + (((total_orders - cash_orders) - 30) * 75) END] *)
Definition online_earnings_expr (total_orders cash_orders : Z) : result Z :=
  d <- total_orders -! cash_orders ;;
  if d <=? 30 then
    d1 <- total_orders -! cash_orders ;;
    d1 *! 55
  else
    a <- 30 *! 55 ;;
    d2 <- total_orders -! cash_orders ;;
    b <- d2 -! 30 ;;
    c <- b *! 75 ;;
    a +! c.

(** [calc_bonus_earnings := CASE WHEN total_orders > 30
                                 THEN (total_orders - 30) * 20 ELSE 0 END] *)
Definition bonus_earnings_expr (total_orders : Z) : result Z :=
  if total_orders >? 30 then
    b <- total_orders -! 30 ;;
    b *! 20
  else Ok 0.

(** The body of the function, assignment by assignment. The arguments are
    [INTEGER] values (not NULL); the single row of [RETURN QUERY] is the
    result, and an overflow in any assignment aborts the call. *)
Definition calculate_earnings
    (total_orders cash_orders morning_cash evening_cash : Z) : result earnings :=
  expected_cash <- expected_cash_expr cash_orders ;;
  actual_cash_diff <- evening_cash -! morning_cash ;;
  calc_cash_earnings <- actual_cash_diff +! expected_cash ;;
  calc_online_earnings <- online_earnings_expr total_orders cash_orders ;;
  calc_bonus_earnings <- bonus_earnings_expr total_orders ;;
  s <- calc_cash_earnings +! calc_online_earnings ;;
  calc_total_earnings <- s +! calc_bonus_earnings ;;
  Ok (mk_earnings calc_cash_earnings calc_online_earnings
                  calc_bonus_earnings calc_total_earnings).

(** The tiered rate in the words of the specification, over the
    unbounded integers: 55 for each of the first 30 units, 75 beyond. *)
Definition tier (n : Z) : Z :=
  if n <=? 30 then n * 55 else 30 * 55 + (n - 30) * 75.

(** The volume bonus in the words of the specification:
    [max(0, total_orders - 30) * 20]. *)
Definition bonus (total_orders : Z) : Z := Z.max 0 (total_orders - 30) * 20.

(** The largest order counts whose tier value and bonus fit [INTEGER]. *)
Definition max_tier_arg : Z := 28633123.
Definition max_bonus_arg : Z := 107374212.

(** No derived amount exceeds [INTEGER]: the expected cash, the three
    earnings and their total. *)
Definition derived_amounts_fit
    (total_orders cash_orders morning_cash evening_cash : Z) : Prop :=
  tier cash_orders <= Int4.max_int /\
  (evening_cash - morning_cash) + tier cash_orders <= Int4.max_int /\
  tier (total_orders - cash_orders) <= Int4.max_int /\
  bonus total_orders <= Int4.max_int /\
  (evening_cash - morning_cash) + tier cash_orders
    + tier (total_orders - cash_orders) + bonus total_orders <= Int4.max_int.

End Calculator.

(** ** The table [public.daily_earnings] with its constraints and
       row-level security policies. *)

Module Store.

(** A calendar date ([DATE], ["yyyy-MM-dd"]) is the number of its day,
    counted from 1970-01-01. Timestamps are milliseconds from the same
    origin. *)
Definition day : Type := Z.

(** Modelled from the spec: the column [online_tips], which the client
    reads and writes but whose declaration is not in the migration at
    hand ("non-negative integer currency amount received digitally as
    tips"); see also [compute_on_write], which the same absent part of
    the schema supplies. The other columns are those of [CREATE TABLE]. *)
Record row : Type := mk_row {
  id : string;            (* UUID NOT NULL DEFAULT gen_random_uuid() PRIMARY KEY *)
  user_id : string;       (* TEXT NOT NULL DEFAULT 'denis' *)
  date : day;             (* DATE NOT NULL *)
  morning_cash : Z;       (* INTEGER NOT NULL *)
  evening_cash : Z;       (* INTEGER NOT NULL *)
  total_orders : Z;       (* INTEGER NOT NULL *)
  cash_orders : Z;        (* INTEGER NOT NULL *)
  online_tips : Z;        (* INTEGER, from the spec *)
  cash_earnings : Z;      (* INTEGER NOT NULL DEFAULT 0 *)
  online_earnings : Z;    (* INTEGER NOT NULL DEFAULT 0 *)
  bonus_earnings : Z;     (* INTEGER NOT NULL DEFAULT 0 *)
  total_earnings : Z;     (* INTEGER NOT NULL DEFAULT 0 *)
  created_at : Z;         (* TIMESTAMP WITH TIME ZONE NOT NULL DEFAULT now() *)
  updated_at : Z          (* TIMESTAMP WITH TIME ZONE NOT NULL DEFAULT now() *)
}.

Definition table : Type := list row.

(** The columns the client supplies on insert; every other column takes
    its default. *)
Record new_row : Type := mk_new_row {
  n_user_id : string;
  n_date : day;
  n_morning_cash : Z;
  n_evening_cash : Z;
  n_total_orders : Z;
  n_cash_orders : Z;
  n_online_tips : Z
}.

(** The four policies. Each compares the row's [user_id] with the literal
    ['denis']; the account on whose behalf the statement runs is an
    argument here only to show that no policy looks at it. *)

(** ["Users can view their own earnings" FOR SELECT USING (user_id = 'denis')] *)
Definition policy_select (requester : string) (r : row) : bool :=
  String.eqb (user_id r) "denis".

(** ["Users can create their own earnings" FOR INSERT WITH CHECK (user_id = 'denis')] *)
Definition policy_insert (requester : string) (r : row) : bool :=
  String.eqb (user_id r) "denis".


(** ["Users can delete their own earnings" FOR DELETE USING (user_id = 'denis')] *)
Definition policy_delete (requester : string) (r : row) : bool :=
  String.eqb (user_id r) "denis".

(** [PRIMARY KEY (id)] and [UNIQUE (user_id, date)], over all rows of the
    table, visible or not. *)
Definition id_taken (i : string) (t : table) : bool :=
  existsb (fun r => String.eqb (id r) i) t.

Definition day_taken (u : string) (d : day) (t : table) : bool :=
  existsb (fun r => String.eqb (user_id r) u && (date r =? d)) t.

(** The row an [INSERT] builds: supplied columns, defaults elsewhere.
    [fresh_id] is the value of [gen_random_uuid()], [now] that of [now()]. *)
Definition row_of_insert (fresh_id : string) (now : Z) (n : new_row) : row :=
  {| id := fresh_id;
     user_id := n_user_id n;
     date := n_date n;
     morning_cash := n_morning_cash n;
     evening_cash := n_evening_cash n;
     total_orders := n_total_orders n;
     cash_orders := n_cash_orders n;
     online_tips := n_online_tips n;
     cash_earnings := 0;
     online_earnings := 0;
     bonus_earnings := 0;
     total_earnings := 0;
     created_at := now;
     updated_at := now |}.

(** How a number of the request body reaches an [INTEGER] column. The body
    is JSON: [JSON.stringify] writes a whole double below [1e21] in plain
    digits and a larger one with an exponent. The column's input routine
    refuses the exponent form as text (22P02) and plain digits beyond 32
    bits as out of range (22003). *)
Definition integer_column (v : Z) : result Z :=
  if 10 ^ 21 <=? Z.abs v then Err invalid_text_representation
  else Int4.checked v.

(** The columns are converted in their order; the first refusal is the
    answer. *)
Definition convert_columns (n : new_row) : result unit :=
  _ <- integer_column (n_morning_cash n) ;;
  _ <- integer_column (n_evening_cash n) ;;
  _ <- integer_column (n_total_orders n) ;;
  _ <- integer_column (n_cash_orders n) ;;
  _ <- integer_column (n_online_tips n) ;;
  Ok tt.

(** Modelled from the spec: the routine triggered on write, whose
    declaration is not in the migration at hand ("the derived fields are
    computed either client-side before the call or server-side by an
    equivalent routine triggered on write"; the client of [Index.tsx]
    sends the raw fields only). It applies [calculate_earnings], which
    the migration does define, to the raw columns of the new row and
    stores the four results in place of the defaults; an error of the
    calculator aborts the insert. *)
Definition compute_on_write (new : row) : result row :=
  e <- Calculator.calculate_earnings (total_orders new) (cash_orders new)
         (morning_cash new) (evening_cash new) ;;
  Ok {| id := id new; user_id := user_id new; date := date new;
        morning_cash := morning_cash new; evening_cash := evening_cash new;
        total_orders := total_orders new; cash_orders := cash_orders new;
        online_tips := online_tips new;
        cash_earnings := Calculator.cash_earnings e;
        online_earnings := Calculator.online_earnings e;
        bonus_earnings := Calculator.bonus_earnings e;
        total_earnings := Calculator.total_earnings e;
        created_at := created_at new; updated_at := updated_at new |}.

(** [INSERT INTO daily_earnings (...) VALUES (...)]: the values are
    converted to their column types, the routine on write fills the
    derived columns, the [WITH CHECK] policy is tested on the resulting
    row, and the key constraints are enforced when the row is added. *)
Definition insert (requester fresh_id : string) (now : Z) (n : new_row)
    (t : table) : result table :=
  _ <- convert_columns n ;;
  r <- compute_on_write (row_of_insert fresh_id now n) ;;
  if negb (policy_insert requester r) then Err insufficient_privilege
  else if id_taken (id r) t || day_taken (user_id r) (date r) t
  then Err unique_violation
  else Ok (t ++ [r]).

(** [SELECT * FROM daily_earnings ORDER BY date DESC]: the rows the select
    policy lets through, sorted by a stable insertion sort. *)
Fixpoint insert_desc (r : row) (l : list row) : list row :=
  match l with
  | [] => [r]
  | x :: l' => if date x <? date r then r :: l else x :: insert_desc r l'
  end.

Definition order_by_date_desc (l : list row) : list row :=
  fold_right insert_desc [] l.

Definition select_order_by_date_desc (requester : string) (t : table) : list row :=
  order_by_date_desc (filter (policy_select requester) t).

(** [DELETE FROM daily_earnings WHERE id = rid]: removes the rows that the
    delete policy exposes and that carry the given id. *)
Definition delete (requester rid : string) (t : table) : table :=
  filter (fun r => negb (policy_delete requester r && String.eqb (id r) rid)) t.

(** [update_updated_at_column()], the [BEFORE UPDATE] trigger. *)
Definition update_updated_at_column (now : Z) (new : row) : row :=
  {| id := id new; user_id := user_id new; date := date new;
     morning_cash := morning_cash new; evening_cash := evening_cash new;
     total_orders := total_orders new; cash_orders := cash_orders new;
     online_tips := online_tips new;
     cash_earnings := cash_earnings new; online_earnings := online_earnings new;
     bonus_earnings := bonus_earnings new; total_earnings := total_earnings new;
     created_at := created_at new; updated_at := now |}.

End Store.

(** ** The form schema of [Index.tsx] (zod). *)

Module Form.

(** A JavaScript number as the schema sees it after [z.coerce.number()]
    has applied [Number(...)] to the field: comparisons and
    [Number.isInteger] are exact on doubles, so a finite value is taken
    as the rational it denotes. *)
Inductive jsnum : Type :=
| NaN
| NegInf
| PosInf
| Fin (q : Q).

(** [Number.isInteger] *)
Definition isInteger (x : jsnum) : bool :=
  match x with
  | Fin q => Qeq_bool (inject_Z (Qfloor q)) q
  | _ => false
  end.

(** [x <= y] and [x < y] of JavaScript: false as soon as one side is NaN. *)
Definition js_le (x y : jsnum) : bool :=
  match x, y with
  | NaN, _ | _, NaN => false
  | NegInf, _ => true
  | _, PosInf => true
  | Fin a, Fin b => Qle_bool a b
  | _, _ => false
  end.

Definition js_lt (x y : jsnum) : bool :=
  match x, y with
  | NaN, _ | _, NaN => false
  | _, _ => negb (js_le y x)
  end.

Inductive field : Type :=
| f_morning_cash | f_evening_cash | f_total_orders | f_cash_orders | f_online_tips.

Inductive issue_code : Type :=
| invalid_type        (* "Expected number, received nan" *)
| not_integer         (* [.int()] *)
| too_small           (* [.min(0, "Hodnota nesmi byt zaporna.")] *)
| custom.             (* [.refine(...)], "Hotovostni objednavky nemohou byt vyssi nez celkovy pocet." *)

Record issue : Type := mk_issue { path : field; code : issue_code }.

(** zod's parse status: an aborted parse stops the enclosing schema, a
    dirty one carries on and fails at the end. *)
Inductive status : Type := valid | dirty | aborted.

Definition merge (a b : status) : status :=
  match a, b with
  | aborted, _ | _, aborted => aborted
  | dirty, _ | _, dirty => dirty
  | valid, valid => valid
  end.

(** [z.coerce.number().int().min(0, msg)] on one field, from the coerced
    number on. *)
Definition number_int_min0 (f : field) (x : jsnum) : status * list issue :=
  match x with
  | NaN => (aborted, [mk_issue f invalid_type])
  | _ =>
      let i1 := if isInteger x then [] else [mk_issue f not_integer] in
      let i2 := if js_lt x (Fin 0) then [mk_issue f too_small] else [] in
      match i1 ++ i2 with
      | [] => (valid, [])
      | l => (dirty, l)
      end
  end.

(** The values of the form after the coercion step, which is modelled
    further down ([coerce]); [online_tips] may be absent ([undefined]),
    in which case [.default(0)] applies. *)
Record raw_values : Type := mk_raw {
  r_morning_cash : jsnum;
  r_evening_cash : jsnum;
  r_total_orders : jsnum;
  r_cash_orders : jsnum;
  r_online_tips : option jsnum
}.

(** [z.infer<typeof formSchema>]: all five are integers once parsed. *)
Record values : Type := mk_values {
  morning_cash : Z;
  evening_cash : Z;
  total_orders : Z;
  cash_orders : Z;
  online_tips : Z
}.

Definition with_default (d : jsnum) (o : option jsnum) : jsnum :=
  match o with Some x => x | None => d end.

(** The [z.object({...})] part: the five fields in the order of the shape. *)
Definition object_parse (r : raw_values) : status * list issue :=
  let '(s1, i1) := number_int_min0 f_morning_cash (r_morning_cash r) in
  let '(s2, i2) := number_int_min0 f_evening_cash (r_evening_cash r) in
  let '(s3, i3) := number_int_min0 f_total_orders (r_total_orders r) in
  let '(s4, i4) := number_int_min0 f_cash_orders (r_cash_orders r) in
  let '(s5, i5) := number_int_min0 f_online_tips
                     (with_default (Fin 0) (r_online_tips r)) in
  (merge s1 (merge s2 (merge s3 (merge s4 s5))), i1 ++ i2 ++ i3 ++ i4 ++ i5).

Definition to_Z (x : jsnum) : Z :=
  match x with Fin q => Qfloor q | _ => 0 end.

Definition values_of (r : raw_values) : values :=
  {| morning_cash := to_Z (r_morning_cash r);
     evening_cash := to_Z (r_evening_cash r);
     total_orders := to_Z (r_total_orders r);
     cash_orders := to_Z (r_cash_orders r);
     online_tips := to_Z (with_default (Fin 0) (r_online_tips r)) |}.

(** [formSchema] from the coerced values on: the object followed by
    [.refine(data => data.cash_orders <= data.total_orders,
             { message, path: ["cash_orders"] })].
    The refinement is skipped when the object parse aborted and runs
    otherwise, also on a dirty object. *)
Definition formSchema (r : raw_values) : values + list issue :=
  let '(s, found) := object_parse r in
  match s with
  | aborted => inr found
  | _ =>
      let all :=
        if js_le (r_cash_orders r) (r_total_orders r) then found
        else found ++ [mk_issue f_cash_orders custom] in
      match all with
      | [] => inl (values_of r)
      | _ => inr all
      end
  end.

(** *** The coercion step: [z.coerce.number()] applies [Number(...)] to
    what the field holds, the text of the number input or, before the
    user touched the field and after [form.reset()], the number 0 of
    [defaultValues]. *)

(** The double nearest to a rational, ties to the even mantissa; beyond
    the largest double the result is infinite. A double is held as the
    rational it denotes, so a result that rounds to [-0] is [Fin 0]: the
    comparisons and [Number.isInteger] do not tell the two zeros apart. *)
Definition round_half_even (n d : Z) : Z :=
  let f := n / d in
  let r2 := 2 * (n mod d) in
  if r2 <? d then f
  else if d <? r2 then f + 1
  else if Z.even f then f else f + 1.

(** [floor (log2 (n / d))] for positive [n] and [d]. *)
Definition binade (n d : Z) : Z :=
  let e0 := Z.log2 n - Z.log2 d in
  let below :=
    if 0 <=? e0 then n <? d * 2 ^ e0 else n * 2 ^ (- e0) <? d in
  if below then e0 - 1 else e0.

Definition round_double (q : Q) : jsnum :=
  let n := Z.abs (Qnum q) in
  let d := Z.pos (Qden q) in
  if n =? 0 then Fin 0
  else
    let e := Z.max (binade n d) (-1022) in
    let k := e - 52 in
    let m := if 0 <=? k then round_half_even n (d * 2 ^ k)
             else round_half_even (n * 2 ^ (- k)) d in
    let negative := Qnum q <? 0 in
    if (0 <=? k) && (2 ^ 1024 <=? m * 2 ^ k)
    then (if negative then NegInf else PosInf)
    else
      let sm := if negative then - m else m in
      Fin (if 0 <=? k then inject_Z (sm * 2 ^ k)
           else Qmake sm (Z.to_pos (2 ^ (- k)))).

(** [StringToNumber]: the text with its white space trimmed is empty
    (value 0), a binary, octal or hexadecimal integer, or a signed
    decimal literal or [Infinity]; anything else is [NaN]. Text is a
    string of bytes: the white space recognised is the ASCII part of
    [StrWhiteSpaceChar], and a number input yields ASCII only. *)
Definition is_space (c : ascii) : bool :=
  let n := Z.of_N (N_of_ascii c) in
  ((9 <=? n) && (n <=? 13)) || (n =? 32).

Fixpoint trim_left (l : list ascii) : list ascii :=
  match l with
  | c :: l' => if is_space c then trim_left l' else l
  | [] => []
  end.

Definition trim (l : list ascii) : list ascii :=
  rev (trim_left (rev (trim_left l))).

Definition digit_in (base : Z) (c : ascii) : option Z :=
  let n := Z.of_N (N_of_ascii c) in
  let v := if (48 <=? n) && (n <=? 57) then n - 48
           else if (97 <=? n) && (n <=? 102) then n - 87
           else if (65 <=? n) && (n <=? 70) then n - 55
           else base in
  if v <? base then Some v else None.

(** The value of the longest prefix of digits, continuing [acc], and what
    follows it. *)
Fixpoint digits_from (base acc : Z) (l : list ascii) : Z * list ascii :=
  match l with
  | c :: l' =>
      match digit_in base c with
      | Some d => digits_from base (acc * base + d) l'
      | None => (acc, l)
      end
  | [] => (acc, [])
  end.

Definition consumed (l rest : list ascii) : Z :=
  Z.of_nat (List.length l) - Z.of_nat (List.length rest).

(** [ExponentPart], which must reach the end of the text. *)
Definition exponent_part (l : list ascii) : option Z :=
  match l with
  | [] => Some 0
  | c :: l1 =>
      if Ascii.eqb c "e" || Ascii.eqb c "E" then
        let '(neg, l2) :=
          match l1 with
          | s :: l2 =>
              if Ascii.eqb s "+" then (false, l2)
              else if Ascii.eqb s "-" then (true, l2)
              else (false, l1)
          | [] => (false, l1)
          end in
        let '(v, rest) := digits_from 10 0 l2 in
        match l2, rest with
        | _ :: _, [] => Some (if neg then - v else v)
        | _, _ => None
        end
      else None
  end.

(** [m * 10 ^ e], exactly. *)
Definition scale (m e : Z) : Q :=
  if 0 <=? e then inject_Z (m * 10 ^ e) else Qmake m (Z.to_pos (10 ^ (- e))).

(** [StrUnsignedDecimalLiteral] other than [Infinity]: digits, an optional
    point with optional digits (or a point followed by digits), an
    optional exponent. *)
Definition unsigned_decimal (l : list ascii) : option Q :=
  let '(ip, r1) := digits_from 10 0 l in
  let ni := consumed l r1 in
  match r1 with
  | c :: r2 =>
      if Ascii.eqb c "." then
        let '(all, r3) := digits_from 10 ip r2 in
        let nf := consumed r2 r3 in
        if (ni =? 0) && (nf =? 0) then None
        else match exponent_part r3 with
             | Some e => Some (scale all (e - nf))
             | None => None
             end
      else if ni =? 0 then None
      else match exponent_part r1 with
           | Some e => Some (scale ip e)
           | None => None
           end
  | [] => if ni =? 0 then None else Some (scale ip 0)
  end.

Definition signed_decimal (negative : bool) (l : list ascii) : jsnum :=
  if String.eqb (string_of_list_ascii l) "Infinity"
  then (if negative then NegInf else PosInf)
  else match unsigned_decimal l with
       | Some q => round_double (if negative then Qopp q else q)
       | None => NaN
       end.

(** [NonDecimalIntegerLiteral]: at least one digit, digits only. *)
Definition non_decimal (base : Z) (l : list ascii) : jsnum :=
  match l, digits_from base 0 l with
  | _ :: _, (v, []) => round_double (inject_Z v)
  | _, _ => NaN
  end.

Definition StringToNumber (s : string) : jsnum :=
  match trim (list_ascii_of_string s) with
  | [] => Fin 0
  | c :: l =>
      let whole := c :: l in
      match l with
      | x :: digits =>
          if Ascii.eqb c "0" && (Ascii.eqb x "x" || Ascii.eqb x "X")
          then non_decimal 16 digits
          else if Ascii.eqb c "0" && (Ascii.eqb x "o" || Ascii.eqb x "O")
          then non_decimal 8 digits
          else if Ascii.eqb c "0" && (Ascii.eqb x "b" || Ascii.eqb x "B")
          then non_decimal 2 digits
          else if Ascii.eqb c "+" then signed_decimal false l
          else if Ascii.eqb c "-" then signed_decimal true l
          else signed_decimal false whole
      | [] => signed_decimal false whole
      end
  end.

(** What a field of the form holds. *)
Inductive field_value : Type :=
| text (s : string)       (* [e.target.value] of the number input *)
| number (x : jsnum).     (* a value of [defaultValues] *)

(** [Number(...)] *)
Definition Number (v : field_value) : jsnum :=
  match v with
  | text s => StringToNumber s
  | number x => x
  end.

(** The five fields as the form holds them; [online_tips] may be absent. *)
Record typed_values : Type := mk_typed {
  t_morning_cash : field_value;
  t_evening_cash : field_value;
  t_total_orders : field_value;
  t_cash_orders : field_value;
  t_online_tips : option field_value
}.

Definition coerce (t : typed_values) : raw_values :=
  {| r_morning_cash := Number (t_morning_cash t);
     r_evening_cash := Number (t_evening_cash t);
     r_total_orders := Number (t_total_orders t);
     r_cash_orders := Number (t_cash_orders t);
     r_online_tips := option_map Number (t_online_tips t) |}.

(** The whole schema on what the form holds: coercion, then the checks of
    [formSchema] above. *)
Definition formSchema_typed (t : typed_values) : values + list issue :=
  formSchema (coerce t).

End Form.

(** ** The dashboard of [Index.tsx]: submission, deletion, list and chart. *)

Module Dashboard.

Definition ms_per_day : Z := 86400000.

(** [new Date(e.date)] for a ["yyyy-MM-dd"] string: midnight UTC of that day. *)
Definition date_ms (d : Store.day) : Z := d * ms_per_day.

(** The time zone of the browser, as [Date] uses it: the offset in force
    at an instant, in milliseconds east of UTC, and the instant a local
    time value stands for (where a local time occurs twice or not at all,
    the choice [Date] makes). *)
Record zone : Type := mk_zone {
  offset_at : Z -> Z;
  utc_of_local : Z -> Z
}.

(** A zone whose clocks never change. *)
Definition fixed_zone (offset : Z) : zone :=
  mk_zone (fun _ => offset) (fun l => l - offset).

(** What the component does to the outside: the calls it sends to the
    store, oldest first. *)
Inductive store_call : Type :=
| call_insert (n : Store.new_row)
| call_delete (rid : string)
| call_select.

Record world : Type := mk_world {
  tbl : Store.table;
  calls : list store_call
}.

(** What the user sees after an interaction. *)
Inductive outcome : Type :=
| saved                                   (* toast.success *)
| save_failed (e : sql_error)             (* toast.error *)
| field_errors (l : list Form.issue)      (* one FormMessage per path *)
| deleted.

Record chart_point : Type := mk_point {
  cp_label : string;        (* date *)
  cp_total : Z;             (* "Celkem Kc" *)
  cp_tips : Z               (* "Dyska celkem Kc" *)
}.

Section Browser.

Variable tz : zone.

(** [format(new Date(ms), "d. M.", { locale: cs })] *)
Variable format_d_M : Z -> string.

(** The local time value of an instant. *)
Definition local_time (t : Z) : Z := t + offset_at tz t.

(** [format(new Date(), "yyyy-MM-dd")]: the local calendar day. *)
Definition local_day (now : Z) : Store.day := local_time now / ms_per_day.

(** [subDays(t, amount)] of date-fns: [setDate(getDate() - amount)], that
    is, the same local time of day [amount] local calendar days earlier,
    read back as an instant. *)
Definition subDays (t amount : Z) : Z :=
  utc_of_local tz (local_time t - amount * ms_per_day).

(** [insertMutation.mutationFn]: the form values, today's date and the
    session's user id go to [insert]; [server_now] and [fresh_id] are what
    the server draws for [now()] and [gen_random_uuid()]. *)
Definition insertMutation (session_user_id : string) (now server_now : Z)
    (fresh_id : string) (newEarning : Form.values) (w : world) : world * outcome :=
  let n :=
    {| Store.n_user_id := session_user_id;
       Store.n_date := local_day now;
       Store.n_morning_cash := Form.morning_cash newEarning;
       Store.n_evening_cash := Form.evening_cash newEarning;
       Store.n_total_orders := Form.total_orders newEarning;
       Store.n_cash_orders := Form.cash_orders newEarning;
       Store.n_online_tips := Form.online_tips newEarning |} in
  let sent := calls w ++ [call_insert n] in
  match Store.insert session_user_id fresh_id server_now n (tbl w) with
  | Ok t => (mk_world t sent, saved)
  | Err e => (mk_world (tbl w) sent, save_failed e)
  end.

Definition onSubmit (session_user_id : string) (now server_now : Z)
    (fresh_id : string) (v : Form.values) (w : world) : world * outcome :=
  insertMutation session_user_id now server_now fresh_id v w.

(** [form.handleSubmit(onSubmit)] with [zodResolver(formSchema)]: the
    handler runs only on values the schema accepts. *)
Definition handleSubmit (session_user_id : string) (now server_now : Z)
    (fresh_id : string) (r : Form.raw_values) (w : world) : world * outcome :=
  match Form.formSchema r with
  | inl v => onSubmit session_user_id now server_now fresh_id v w
  | inr errors => (w, field_errors errors)
  end.

(** The same on what the form holds: the resolver coerces, then checks. *)
Definition handleSubmit_typed (session_user_id : string) (now server_now : Z)
    (fresh_id : string) (t : Form.typed_values) (w : world) : world * outcome :=
  handleSubmit session_user_id now server_now fresh_id (Form.coerce t) w.

(** [deleteMutation] through [handleDelete]. *)
Definition handleDelete (session_user_id rid : string) (w : world) : world * outcome :=
  (mk_world (Store.delete session_user_id rid (tbl w))
            (calls w ++ [call_delete rid]), deleted).

(** [fetchEarnings]: everything the store shows to the session, newest
    first. *)
Definition fetchEarnings (session_user_id : string) (w : world) : world * list Store.row :=
  (mk_world (tbl w) (calls w ++ [call_select]),
   Store.select_order_by_date_desc session_user_id (tbl w)).

(** [e => new Date(e.date) >= subDays(new Date(), 7)] *)
Definition in_last_week (now : Z) (e : Store.row) : bool :=
  date_ms (Store.date e) >=? subDays now 7.

Definition point_of (e : Store.row) : chart_point :=
  {| cp_label := format_d_M (date_ms (Store.date e));
     cp_total := Store.total_earnings e;
     cp_tips := Store.cash_earnings e + Store.online_tips e |}.

(** [chartData = earnings.filter(...).map(...).reverse()] *)
Definition chartData (now : Z) (earnings : list Store.row) : list chart_point :=
  rev (map point_of (filter (in_last_week now) earnings)).

(** The records behind the chart, in the order of display. *)
Definition charted (now : Z) (earnings : list Store.row) : list Store.row :=
  rev (filter (in_last_week now) earnings).

End Browser.

(** The calendar day in UTC. *)
Definition utc_day (now : Z) : Store.day := now / ms_per_day.

(** Orders of a list of records by date. *)
Definition descending (l : list Store.row) : Prop :=
  StronglySorted (fun a b => Store.date b <= Store.date a) l.

Definition ascending (l : list Store.row) : Prop :=
  StronglySorted (fun a b => Store.date a <= Store.date b) l.

End Dashboard.

(** ** Vocabulary of the statements *)

Module Terms.

(** A field of the form holds a negative number. *)
Definition negative (x : Form.jsnum) : Prop := Form.js_lt x (Form.Fin 0) = true.

(** [cash_orders > total_orders] as JavaScript compares them. *)
Definition cash_exceeds_total (r : Form.raw_values) : Prop :=
  Form.js_lt (Form.r_total_orders r) (Form.r_cash_orders r) = true.

Definition tips (r : Form.raw_values) : Form.jsnum :=
  Form.with_default (Form.Fin 0) (Form.r_online_tips r).

(** Some input is negative or the cash orders exceed the total. *)
Definition invalid_input (r : Form.raw_values) : Prop :=
  negative (Form.r_morning_cash r) \/ negative (Form.r_evening_cash r) \/
  negative (Form.r_total_orders r) \/ negative (Form.r_cash_orders r) \/
  negative (tips r) \/ cash_exceeds_total r.

(** The form filled with integers. *)
Definition filled (morning evening total cash tips : Z) : Form.raw_values :=
  Form.mk_raw (Form.Fin (inject_Z morning)) (Form.Fin (inject_Z evening))
              (Form.Fin (inject_Z total)) (Form.Fin (inject_Z cash))
              (Some (Form.Fin (inject_Z tips))).

(** The first calendar day whose midnight UTC is not before an instant. *)
Definition first_day_from (instant : Z) : Store.day :=
  - (- instant / Dashboard.ms_per_day).

(** The first day the weekly chart shows when the zone's clocks did not
    change during the week: the UTC day of the instant minus 6, or minus
    7 at midnight UTC exactly. *)
Definition first_charted_day (now : Z) : Store.day :=
  if now mod Dashboard.ms_per_day =? 0
  then Dashboard.utc_day now - 7
  else Dashboard.utc_day now - 6.

(** Central Europe around the end of summer time 2025: two hours east of
    UTC until 2025-10-26 01:00 UTC, one hour from then on; the local hour
    from 02:00 to 03:00 of that night, which occurs twice, is read as its
    first occurrence. *)
Definition prague_autumn_2025 : Dashboard.zone :=
  Dashboard.mk_zone
    (fun t => if t <? 1761440400000 then 7200000 else 3600000)
    (fun l => if l <? 1761440400000 + 7200000 then l - 7200000 else l - 3600000).

(** The derived columns of a stored row, as a calculator result. *)
Definition stored_earnings (r : Store.row) : Calculator.earnings :=
  Calculator.mk_earnings (Store.cash_earnings r) (Store.online_earnings r)
                         (Store.bonus_earnings r) (Store.total_earnings r).

(** The calculator applied to the raw columns of a stored row. *)
Definition computed_earnings (r : Store.row) : result Calculator.earnings :=
  Calculator.calculate_earnings (Store.total_orders r) (Store.cash_orders r)
                                (Store.morning_cash r) (Store.evening_cash r).

(** A record of the given account and day, all amounts zero. *)
Definition record_of (i u : string) (d : Store.day) : Store.row :=
  Store.mk_row i u d 0 0 0 0 0 0 0 0 0 0 0.

Definition empty_world : Dashboard.world := Dashboard.mk_world [] [].


End Terms.

(** ** The root component of [App.tsx]: the session and what is shown. *)

Module App.

(** [useState<Session | null>(null)] and [useState(true)]; of a session
    only [session.user.id] is used. *)
Record state : Type := mk_state {
  session : option string;
  loading : bool
}.

Definition initial : state := mk_state None true.

(** What reaches the component after mount: the answer to
    [supabase.auth.getSession()] and the notifications of
    [onAuthStateChange], until the cleanup unsubscribes. *)
Inductive event : Type :=
| getSession_resolved (s : option string)
| auth_state_changed (s : option string).

Definition session_of (ev : event) : option string :=
  match ev with
  | getSession_resolved s => s
  | auth_state_changed s => s
  end.

(** [setSession(session); setLoading(false)] in the first case,
    [setSession(session)] alone in the second. *)
Definition step (st : state) (ev : event) : state :=
  match ev with
  | getSession_resolved s => mk_state s false
  | auth_state_changed s => mk_state s (loading st)
  end.

Definition run (evs : list event) : state := fold_left step evs initial.

Inductive view : Type :=
| loading_screen
| auth_page
| dashboard (key : string).      (* [<Dashboard key={session.user.id} .../>] *)

(** [if (loading) return ...; return !session ? <AuthPage/> : <Dashboard/>] *)
Definition render (st : state) : view :=
  if loading st then loading_screen
  else match session st with
       | None => auth_page
       | Some u => dashboard u
       end.

Definition is_resolution (ev : event) : bool :=
  match ev with
  | getSession_resolved _ => true
  | auth_state_changed _ => false
  end.

End App.

(** ** Further vocabulary *)

Module Notions.

(** The field holds the non-negative whole number [n]. *)
Definition whole_number (x : Form.jsnum) (n : Z) : Prop :=
  match x with
  | Form.Fin q => (q == inject_Z n)%Q /\ 0 <= n
  | _ => False
  end.

(** The two keys of the table: [PRIMARY KEY (id)] and
    [UNIQUE (user_id, date)]. *)
Definition keys_unique (t : Store.table) : Prop :=
  NoDup (map Store.id t) /\
  NoDup (map (fun r => (Store.user_id r, Store.date r)) t).

(** What a returned row pays for the orders themselves: everything but
    the change of the cash drawer. *)
Definition order_payment (r : Calculator.earnings) (morning_cash evening_cash : Z) : Z :=
  Calculator.total_earnings r - (evening_cash - morning_cash).


(** The form filled with text, the tips field included. *)
Definition typed (morning evening total cash tips : string) : Form.typed_values :=
  Form.mk_typed (Form.text morning) (Form.text evening) (Form.text total)
                (Form.text cash) (Some (Form.text tips)).

(** The number a decimal text denotes, before any rounding. *)
Definition typed_value (s : string) : option Q :=
  match list_ascii_of_string s with
  | c :: l =>
      if Ascii.eqb c "-" then option_map Qopp (Form.unsigned_decimal l)
      else Form.unsigned_decimal (c :: l)
  | [] => None
  end.


(** The instant lies within the calendar day [d] of the browser's zone. *)
Definition on_local_day (tz : Dashboard.zone) (now : Z) (d : Store.day) : Prop :=
  Dashboard.date_ms d <= Dashboard.local_time tz now < Dashboard.date_ms (d + 1).


(** The zone reads local times back with an offset of at most a day. *)
Definition offsets_within_a_day (tz : Dashboard.zone) : Prop :=
  forall l, - Dashboard.ms_per_day <= l - Dashboard.utc_of_local tz l
            <= Dashboard.ms_per_day.


(** A user id as the auth provider issues them. *)
Definition some_session : string := "3f0c9a52-7d1e-4b8a-9c41-5e2f6a7b8c90".

(** Some field of the form is not a number. *)
Definition some_field_NaN (r : Form.raw_values) : Prop :=
  Form.r_morning_cash r = Form.NaN \/ Form.r_evening_cash r = Form.NaN \/
  Form.r_total_orders r = Form.NaN \/ Form.r_cash_orders r = Form.NaN \/
  Terms.tips r = Form.NaN.

End Notions.

(** * Properties *)

(** ** Checked arithmetic *)

Lemma in_range_iff (x : Z) :
  Int4.in_range x = true <-> Int4.min_int <= x <= Int4.max_int.
Proof.
  unfold Int4.in_range. rewrite andb_true_iff, !Z.leb_le. tauto.
Qed.

Lemma checked_fits (x : Z) :
  Int4.min_int <= x <= Int4.max_int -> Int4.checked x = Ok x.
Proof.
  intros H. unfold Int4.checked. apply in_range_iff in H. now rewrite H.
Qed.

Lemma checked_overflow (x : Z) :
  Int4.max_int < x -> Int4.checked x = Err numeric_value_out_of_range.
Proof.
  intros H. unfold Int4.checked.
  destruct (Int4.in_range x) eqn:E; [| reflexivity].
  apply in_range_iff in E. lia.
Qed.

Lemma checked_underflow (x : Z) :
  x < Int4.min_int -> Int4.checked x = Err numeric_value_out_of_range.
Proof.
  intros H. unfold Int4.checked.
  destruct (Int4.in_range x) eqn:E; [| reflexivity].
  apply in_range_iff in E. lia.
Qed.

Lemma checked_inv (x y : Z) :
  Int4.checked x = Ok y -> y = x /\ Int4.min_int <= x <= Int4.max_int.
Proof.
  unfold Int4.checked. destruct (Int4.in_range x) eqn:E; [| discriminate].
  intros [= <-]. split; [reflexivity | now apply in_range_iff].
Qed.

Lemma bind_inv {A B : Type} (r : result A) (k : A -> result B) (b : B) :
  bind r k = Ok b -> exists a, r = Ok a /\ k a = Ok b.
Proof.
  destruct r as [a | e]; simpl; [| discriminate]. intros H. now exists a.
Qed.

(** Decide every range test in the goal, keeping the bounds it yields. *)
Ltac range_cases :=
  unfold Int4.add, Int4.sub, Int4.mul, Int4.checked, Int4.in_range,
         Int4.min_int, Int4.max_int in *;
  repeat match goal with
         | |- context [ (?a <=? ?b) ] =>
             destruct (Z.leb_spec a b); cbn [bind andb]
         | |- context [ (?a >? ?b) ] => rewrite (Z.gtb_ltb a b)
         | |- context [ (?a <? ?b) ] =>
             destruct (Z.ltb_spec a b); cbn [bind andb]
         end;
  try reflexivity; try lia.

(** ** The two CASE expressions and the bonus, against the specification's
       formulas: each is the formula followed by one range check. *)

Lemma expected_cash_checked (n : Z) :
  Calculator.expected_cash_expr n = Int4.checked (Calculator.tier n).
Proof.
  unfold Calculator.expected_cash_expr, Calculator.tier.
  destruct (Z.leb_spec n 30); [reflexivity |].
  change (30 *! 55) with (Ok (A:=Z) 1650). cbn [bind].
  change (30 * 55) with 1650.
  range_cases.
Qed.

Lemma online_earnings_checked (t c : Z) :
  Calculator.online_earnings_expr t c = Int4.checked (Calculator.tier (t - c)).
Proof.
  unfold Calculator.online_earnings_expr, Calculator.tier.
  change (30 *! 55) with (Ok (A:=Z) 1650).
  change (30 * 55) with 1650.
  destruct (Z.leb_spec (t - c) 30); range_cases.
Qed.

Lemma bonus_earnings_checked (t : Z) :
  Calculator.bonus_earnings_expr t = Int4.checked (Calculator.bonus t).
Proof.
  unfold Calculator.bonus_earnings_expr, Calculator.bonus.
  rewrite Z.gtb_ltb.
  destruct (Z.ltb_spec 30 t).
  - rewrite Z.max_r by lia. range_cases.
  - rewrite Z.max_l by lia. reflexivity.
Qed.

Lemma tier_nonneg (n : Z) : 0 <= n -> 0 <= Calculator.tier n.
Proof. unfold Calculator.tier. destruct (Z.leb_spec n 30); lia. Qed.

Lemma bonus_nonneg (t : Z) : 0 <= Calculator.bonus t.
Proof. unfold Calculator.bonus. lia. Qed.

(** Whatever the calculator returns is the specification's value. *)
Lemma calculate_earnings_sound (t c m e : Z) (r : Calculator.earnings) :
  Calculator.calculate_earnings t c m e = Ok r ->
  Calculator.cash_earnings r = (e - m) + Calculator.tier c /\
  Calculator.online_earnings r = Calculator.tier (t - c) /\
  Calculator.bonus_earnings r = Calculator.bonus t /\
  Calculator.total_earnings r =
    Calculator.cash_earnings r + Calculator.online_earnings r
    + Calculator.bonus_earnings r.
Proof.
  unfold Calculator.calculate_earnings.
  rewrite expected_cash_checked, online_earnings_checked, bonus_earnings_checked.
  unfold Int4.add, Int4.sub.
  intros H.
  apply bind_inv in H as (ec & H1 & H). apply checked_inv in H1 as [-> _].
  apply bind_inv in H as (d & H2 & H). apply checked_inv in H2 as [-> _].
  apply bind_inv in H as (ca & H3 & H). apply checked_inv in H3 as [-> _].
  apply bind_inv in H as (on & H4 & H). apply checked_inv in H4 as [-> _].
  apply bind_inv in H as (bo & H5 & H). apply checked_inv in H5 as [-> _].
  apply bind_inv in H as (s & H6 & H). apply checked_inv in H6 as [-> _].
  apply bind_inv in H as (to & H7 & H). apply checked_inv in H7 as [-> _].
  injection H as <-. simpl. repeat split; reflexivity.
Qed.

(** On validated [INTEGER] arguments the calculator returns exactly when
    the derived amounts fit. *)
Lemma calculate_earnings_returns (t c m e : Z) :
  0 <= c <= t -> 0 <= m <= Int4.max_int -> 0 <= e <= Int4.max_int ->
  Calculator.derived_amounts_fit t c m e ->
  Calculator.calculate_earnings t c m e =
    Ok (Calculator.mk_earnings
          ((e - m) + Calculator.tier c)
          (Calculator.tier (t - c))
          (Calculator.bonus t)
          ((e - m) + Calculator.tier c + Calculator.tier (t - c)
           + Calculator.bonus t)).
Proof.
  intros Hc Hm He (F1 & F2 & F3 & F4 & F5).
  pose proof (tier_nonneg c ltac:(lia)) as T1.
  pose proof (tier_nonneg (t - c) ltac:(lia)) as T2.
  pose proof (bonus_nonneg t) as T3.
  unfold Calculator.calculate_earnings.
  rewrite expected_cash_checked, online_earnings_checked, bonus_earnings_checked.
  unfold Int4.add, Int4.sub.
  unfold Int4.max_int in *.
  rewrite (checked_fits (Calculator.tier c)) by (unfold Int4.min_int, Int4.max_int; lia).
  cbn [bind].
  rewrite (checked_fits (e - m)) by (unfold Int4.min_int, Int4.max_int; lia).
  cbn [bind].
  rewrite (checked_fits (e - m + Calculator.tier c))
    by (unfold Int4.min_int, Int4.max_int; lia).
  cbn [bind].
  rewrite (checked_fits (Calculator.tier (t - c)))
    by (unfold Int4.min_int, Int4.max_int; lia).
  cbn [bind].
  rewrite (checked_fits (Calculator.bonus t))
    by (unfold Int4.min_int, Int4.max_int; lia).
  cbn [bind].
  rewrite (checked_fits (e - m + Calculator.tier c + Calculator.tier (t - c)))
    by (unfold Int4.min_int, Int4.max_int; lia).
  cbn [bind].
  rewrite (checked_fits (e - m + Calculator.tier c + Calculator.tier (t - c)
                         + Calculator.bonus t))
    by (unfold Int4.min_int, Int4.max_int; lia).
  reflexivity.
Qed.

(** The only error the calculator raises is "integer out of range". *)
Lemma calculate_earnings_error (t c m e : Z) (err : sql_error) :
  Calculator.calculate_earnings t c m e = Err err ->
  err = numeric_value_out_of_range.
Proof.
  unfold Calculator.calculate_earnings.
  rewrite expected_cash_checked, online_earnings_checked, bonus_earnings_checked.
  unfold Int4.add, Int4.sub, Int4.checked.
  repeat (destruct (Int4.in_range _); cbn [bind]; [| now intros [= <-]]).
  discriminate.
Qed.

(** A returned row means that no derived amount exceeded [INTEGER]. *)
Lemma calculate_earnings_ok_fits (t c m e : Z) (r : Calculator.earnings) :
  Calculator.calculate_earnings t c m e = Ok r ->
  Calculator.derived_amounts_fit t c m e.
Proof.
  unfold Calculator.calculate_earnings.
  rewrite expected_cash_checked, online_earnings_checked, bonus_earnings_checked.
  unfold Int4.add, Int4.sub. intros H.
  apply bind_inv in H as (ec & H1 & H). apply checked_inv in H1 as [-> B1].
  apply bind_inv in H as (d & H2 & H). apply checked_inv in H2 as [-> B2].
  apply bind_inv in H as (ca & H3 & H). apply checked_inv in H3 as [-> B3].
  apply bind_inv in H as (on & H4 & H). apply checked_inv in H4 as [-> B4].
  apply bind_inv in H as (bo & H5 & H). apply checked_inv in H5 as [-> B5].
  apply bind_inv in H as (s & H6 & H). apply checked_inv in H6 as [-> B6].
  apply bind_inv in H as (to & H7 & H). apply checked_inv in H7 as [-> B7].
  unfold Calculator.derived_amounts_fit. repeat split; lia.
Qed.

(** Whenever some derived amount exceeds [INTEGER], the calculator
    raises. *)
Lemma calculate_earnings_raises (t c m e : Z) :
  ~ Calculator.derived_amounts_fit t c m e ->
  Calculator.calculate_earnings t c m e = Err numeric_value_out_of_range.
Proof.
  intros Hnot.
  destruct (Calculator.calculate_earnings t c m e) as [r | err] eqn:H.
  - exfalso. apply Hnot. now apply calculate_earnings_ok_fits in H.
  - f_equal. now apply calculate_earnings_error in H.
Qed.

(** ** The calculator *)

(** Beyond [max_tier_arg] the tier value no longer fits [INTEGER] and the
    expression raises instead of returning. *)
Lemma expected_cash_out_of_range (n : Z) :
  Calculator.max_tier_arg < n ->
  Calculator.expected_cash_expr n = Err numeric_value_out_of_range.
Proof.
  intros H. rewrite expected_cash_checked. apply checked_overflow.
  unfold Calculator.tier, Calculator.max_tier_arg, Int4.max_int in *.
  destruct (Z.leb_spec n 30); lia.
Qed.

(** C1, as stated, fails: for the non-negative [INTEGER] 28633124 the tier
    expression does not evaluate to [1650 + (n - 30) * 75]; it raises
    "integer out of range". *)
Lemma tier_overflow_counterexample :
  0 <= 28633124 /\ 30 < 28633124 /\
  Calculator.expected_cash_expr 28633124 = Err numeric_value_out_of_range /\
  Calculator.expected_cash_expr 28633124 <> Ok (1650 + (28633124 - 30) * 75).
Proof.
  split; [lia |]. split; [lia |]. split; [reflexivity | discriminate].
Qed.

(** C1 (amended). For every non-negative [n] the tier expression of the
    calculator yields [n * 55] when [n <= 30] and [1650 + (n - 30) * 75]
    when [30 < n <= 28633123], the largest argument whose tier value fits
    [INTEGER]; for larger [n] it raises "integer out of range". The
    expression applied to [total_orders - cash_orders] for the online
    earnings is the same function as the one applied to [cash_orders] for
    the expected cash, and a returned row carries its values. *)
Theorem tier_within_integer_range (n : Z) :
  0 <= n ->
  (n <= 30 -> Calculator.expected_cash_expr n = Ok (n * 55)) /\
  (30 < n -> n <= Calculator.max_tier_arg ->
     Calculator.expected_cash_expr n = Ok (1650 + (n - 30) * 75)) /\
  (Calculator.max_tier_arg < n ->
     Calculator.expected_cash_expr n = Err numeric_value_out_of_range) /\
  (forall t c, t - c = n ->
     Calculator.online_earnings_expr t c = Calculator.expected_cash_expr n) /\
  (forall t c m e r v,
     Calculator.calculate_earnings t c m e = Ok r ->
     Calculator.expected_cash_expr n = Ok v ->
     (c = n -> Calculator.cash_earnings r = (e - m) + v) /\
     (t - c = n -> Calculator.online_earnings r = v)).
Proof.
  intros Hn. unfold Calculator.max_tier_arg.
  split; [| split; [| split; [| split]]].
  - intros Hle. rewrite expected_cash_checked.
    unfold Calculator.tier. destruct (Z.leb_spec n 30); [| lia].
    apply checked_fits. unfold Int4.min_int, Int4.max_int. lia.
  - intros Hgt Hmax. rewrite expected_cash_checked.
    unfold Calculator.tier. destruct (Z.leb_spec n 30); [lia |].
    change (30 * 55) with 1650.
    apply checked_fits. unfold Int4.min_int, Int4.max_int. lia.
  - intros Hbig. now apply expected_cash_out_of_range.
  - intros t c <-. now rewrite online_earnings_checked, expected_cash_checked.
  - intros t c m e r v Hrow Hv.
    rewrite expected_cash_checked in Hv. apply checked_inv in Hv as [-> _].
    apply calculate_earnings_sound in Hrow as (Hc & Ho & _).
    split; [intros -> | intros E].
    + exact Hc.
    + now rewrite Ho, E.
Qed.

Lemma tier_within_integer_range_witness :
  Calculator.expected_cash_expr 35 = Ok 2025 /\
  Calculator.online_earnings_expr 40 5 = Calculator.expected_cash_expr 35.
Proof.
  pose proof (tier_within_integer_range 35 ltac:(lia)) as (_ & H & _ & Ho & _).
  split; [apply H; [lia | unfold Calculator.max_tier_arg; lia]
         | apply Ho; reflexivity].
Defined.

(** C2, as stated, fails: the input below satisfies
    [0 <= cash_orders <= total_orders] and has non-negative cash amounts,
    yet the calculator returns no row, since [evening_cash - morning_cash
    + 55] exceeds [INTEGER]. *)
Lemma cash_earnings_overflow_counterexample :
  0 <= 1 <= 1 /\ 0 <= 0 /\ 0 <= 2147483647 /\
  Calculator.calculate_earnings 1 1 0 2147483647
    = Err numeric_value_out_of_range /\
  ~ (exists r, Calculator.calculate_earnings 1 1 0 2147483647 = Ok r /\
               Calculator.cash_earnings r
                 = (2147483647 - 0) + Calculator.tier 1).
Proof.
  repeat (split; [first [lia | reflexivity] |]).
  intros (r & H & _). discriminate H.
Qed.

(** C2 (amended). For every input with [0 <= cash_orders <= total_orders]
    and non-negative [INTEGER] cash amounts: when the derived amounts all
    fit [INTEGER], the calculator returns a row with
    [cash_earnings = (evening_cash - morning_cash) + tier(cash_orders)],
    the difference being signed; the value is not clamped, so it is
    negative as soon as the drawer shrank by more than
    [tier(cash_orders)]. When some derived amount does not fit, the
    calculator raises "integer out of range" and returns no row. *)
Theorem cash_earnings_signed_difference (t c m e : Z) :
  0 <= c <= t -> 0 <= m <= Int4.max_int -> 0 <= e <= Int4.max_int ->
  (Calculator.derived_amounts_fit t c m e ->
   exists r,
     Calculator.calculate_earnings t c m e = Ok r /\
     Calculator.cash_earnings r = (e - m) + Calculator.tier c /\
     (e - m < - Calculator.tier c -> Calculator.cash_earnings r < 0)) /\
  (~ Calculator.derived_amounts_fit t c m e ->
   Calculator.calculate_earnings t c m e = Err numeric_value_out_of_range).
Proof.
  intros Hc Hm He. split.
  - intros Hfit.
    eexists. split; [apply calculate_earnings_returns; assumption |].
    simpl. split; [reflexivity | lia].
  - apply calculate_earnings_raises.
Qed.

Lemma cash_earnings_signed_difference_witness :
  exists r, Calculator.calculate_earnings 40 35 2500 100 = Ok r /\
            Calculator.cash_earnings r = -375 /\
            Calculator.cash_earnings r < 0.
Proof.
  destruct (cash_earnings_signed_difference 40 35 2500 100) as [Hfit _].
  - lia.
  - unfold Int4.max_int. lia.
  - unfold Int4.max_int. lia.
  - destruct Hfit as (r & H & Hv & Hneg).
    + unfold Calculator.derived_amounts_fit, Int4.max_int. cbn. lia.
    + exists r. split; [exact H |]. split; [exact Hv |].
      apply Hneg. cbn. lia.
Defined.

(** The drawer may shrink by more than the expected cash: the result is
    then negative. *)
Example cash_earnings_negative :
  Calculator.calculate_earnings 0 0 100 0 = Ok (Calculator.mk_earnings (-100) 0 0 (-100)).
Proof. reflexivity. Qed.

(** C3, as stated, fails: for the non-negative [INTEGER] total below the
    calculator returns no row at all, so no bonus of
    [(total_orders - 30) * 20]. *)
Lemma bonus_overflow_counterexample :
  0 <= 2147483647 /\ 30 < 2147483647 /\
  Calculator.bonus_earnings_expr 2147483647 = Err numeric_value_out_of_range /\
  Calculator.calculate_earnings 2147483647 0 0 0
    = Err numeric_value_out_of_range /\
  ~ (exists r, Calculator.calculate_earnings 2147483647 0 0 0 = Ok r /\
               Calculator.bonus_earnings r = (2147483647 - 30) * 20).
Proof.
  repeat (split; [first [lia | reflexivity] |]).
  intros (r & H & _). discriminate H.
Qed.

(** C3 (amended). For every non-negative [total_orders] the bonus
    expression yields 0 when [total_orders <= 30] and
    [(total_orders - 30) * 20] when [30 < total_orders <= 107374212], the
    largest total whose bonus fits [INTEGER]; beyond it raises "integer
    out of range" and the calculator returns no row. Every row the
    calculator returns carries that bonus whatever the cash orders and
    cash amounts are (it is computed from the combined total), and the
    calculator does return on validated inputs whose derived amounts
    fit. *)
Theorem bonus_on_combined_total (t : Z) :
  0 <= t ->
  (t <= 30 -> Calculator.bonus_earnings_expr t = Ok 0) /\
  (30 < t -> t <= Calculator.max_bonus_arg ->
     Calculator.bonus_earnings_expr t = Ok ((t - 30) * 20)) /\
  (Calculator.max_bonus_arg < t ->
     Calculator.bonus_earnings_expr t = Err numeric_value_out_of_range /\
     forall c m e,
       Calculator.calculate_earnings t c m e = Err numeric_value_out_of_range) /\
  (forall c m e r,
     Calculator.calculate_earnings t c m e = Ok r ->
     Calculator.bonus_earnings_expr t = Ok (Calculator.bonus_earnings r)) /\
  (forall c m e,
     0 <= c <= t -> 0 <= m <= Int4.max_int -> 0 <= e <= Int4.max_int ->
     Calculator.derived_amounts_fit t c m e ->
     exists r, Calculator.calculate_earnings t c m e = Ok r /\
               Calculator.bonus_earnings_expr t = Ok (Calculator.bonus_earnings r)).
Proof.
  intros Ht. unfold Calculator.max_bonus_arg.
  assert (Hb : t <= 107374212 ->
               Calculator.bonus_earnings_expr t = Ok (Calculator.bonus t)).
  { intros Hmax. rewrite bonus_earnings_checked. apply checked_fits.
    unfold Calculator.bonus, Int4.min_int, Int4.max_int. lia. }
  assert (Hbig : 107374212 < t -> Int4.max_int < Calculator.bonus t).
  { intros Hgt. unfold Calculator.bonus, Int4.max_int. lia. }
  assert (Hrow : forall c m e r,
             Calculator.calculate_earnings t c m e = Ok r ->
             Calculator.bonus_earnings_expr t = Ok (Calculator.bonus_earnings r)).
  { intros c m e r H.
    assert (Hfit := calculate_earnings_ok_fits _ _ _ _ _ H).
    destruct Hfit as (_ & _ & _ & F & _).
    apply calculate_earnings_sound in H as (_ & _ & -> & _).
    rewrite bonus_earnings_checked. apply checked_fits.
    pose proof (bonus_nonneg t). unfold Int4.min_int. lia. }
  split; [| split; [| split; [| split]]].
  - intros Hle. rewrite Hb by lia. unfold Calculator.bonus. f_equal. lia.
  - intros Hgt Hmax. rewrite Hb by lia. unfold Calculator.bonus. f_equal. lia.
  - intros Hgt. split.
    + rewrite bonus_earnings_checked. apply checked_overflow. now apply Hbig.
    + intros c m e. apply calculate_earnings_raises.
      intros (_ & _ & _ & F & _). specialize (Hbig Hgt). lia.
  - exact Hrow.
  - intros c m e Hc Hm He Hfit.
    exists (Calculator.mk_earnings
              ((e - m) + Calculator.tier c) (Calculator.tier (t - c))
              (Calculator.bonus t)
              ((e - m) + Calculator.tier c + Calculator.tier (t - c)
               + Calculator.bonus t)).
    assert (Hret := calculate_earnings_returns t c m e Hc Hm He Hfit).
    split; [exact Hret | exact (Hrow _ _ _ _ Hret)].
Qed.

Lemma bonus_on_combined_total_witness :
  Calculator.bonus_earnings_expr 40 = Ok 200 /\
  Calculator.bonus_earnings_expr 30 = Ok 0.
Proof.
  pose proof (bonus_on_combined_total 40 ltac:(lia)) as (_ & Hgt & _).
  pose proof (bonus_on_combined_total 30 ltac:(lia)) as (Hle & _).
  split; [apply Hgt; [lia | unfold Calculator.max_bonus_arg; lia]
         | apply Hle; lia].
Defined.

(** C4. Whatever the arguments, also ones that violate the preconditions,
    the four outputs of the calculator satisfy
    [total_earnings = cash_earnings + online_earnings + bonus_earnings]. *)
Theorem total_is_sum_of_parts (t c m e : Z) (r : Calculator.earnings) :
  Calculator.calculate_earnings t c m e = Ok r ->
  Calculator.total_earnings r =
    Calculator.cash_earnings r + Calculator.online_earnings r
    + Calculator.bonus_earnings r.
Proof.
  intros H. now apply calculate_earnings_sound in H.
Qed.

Lemma total_is_sum_of_parts_witness :
  Calculator.total_earnings (Calculator.mk_earnings (-1155) 825 0 (-330))
  = -1155 + 825 + 0.
Proof.
  exact (total_is_sum_of_parts 10 (-5) 900 20
           (Calculator.mk_earnings (-1155) 825 0 (-330)) eq_refl).
Defined.

(** C5. The two worked examples. *)
Theorem worked_examples :
  Calculator.calculate_earnings 25 10 200 850
    = Ok (Calculator.mk_earnings 1200 825 0 2025) /\
  Calculator.calculate_earnings 40 35 100 500
    = Ok (Calculator.mk_earnings 2425 275 200 2900).
Proof. split; reflexivity. Qed.

(** ** The form schema *)

Lemma number_issues (f : Form.field) (x : Form.jsnum) :
  snd (Form.number_int_min0 f x) =
  match x with
  | Form.NaN => [Form.mk_issue f Form.invalid_type]
  | _ => (if Form.isInteger x then [] else [Form.mk_issue f Form.not_integer])
         ++ (if Form.js_lt x (Form.Fin 0)
             then [Form.mk_issue f Form.too_small] else [])
  end.
Proof.
  destruct x; try reflexivity; unfold Form.number_int_min0;
    destruct (Form.isInteger _), (Form.js_lt _ _); reflexivity.
Qed.

Lemma negative_issue (f : Form.field) (x : Form.jsnum) :
  Terms.negative x ->
  In (Form.mk_issue f Form.too_small) (snd (Form.number_int_min0 f x)).
Proof.
  unfold Terms.negative. intros H. rewrite number_issues.
  destruct x; try discriminate H; rewrite H; apply in_or_app; right; now left.
Qed.

Lemma number_aborted_issues (f : Form.field) (x : Form.jsnum) :
  fst (Form.number_int_min0 f x) = Form.aborted ->
  snd (Form.number_int_min0 f x) <> [].
Proof.
  destruct x; try discriminate; unfold Form.number_int_min0;
    destruct (Form.isInteger _), (Form.js_lt _ _); discriminate.
Qed.

Lemma merge_aborted (a b : Form.status) :
  Form.merge a b = Form.aborted -> a = Form.aborted \/ b = Form.aborted.
Proof. destruct a, b; simpl; intros H; auto; discriminate. Qed.

Lemma object_parse_eq (r : Form.raw_values) :
  Form.object_parse r =
  (Form.merge (fst (Form.number_int_min0 Form.f_morning_cash (Form.r_morning_cash r)))
    (Form.merge (fst (Form.number_int_min0 Form.f_evening_cash (Form.r_evening_cash r)))
      (Form.merge (fst (Form.number_int_min0 Form.f_total_orders (Form.r_total_orders r)))
        (Form.merge (fst (Form.number_int_min0 Form.f_cash_orders (Form.r_cash_orders r)))
                    (fst (Form.number_int_min0 Form.f_online_tips (Terms.tips r)))))),
   snd (Form.number_int_min0 Form.f_morning_cash (Form.r_morning_cash r))
   ++ snd (Form.number_int_min0 Form.f_evening_cash (Form.r_evening_cash r))
   ++ snd (Form.number_int_min0 Form.f_total_orders (Form.r_total_orders r))
   ++ snd (Form.number_int_min0 Form.f_cash_orders (Form.r_cash_orders r))
   ++ snd (Form.number_int_min0 Form.f_online_tips (Terms.tips r))).
Proof.
  unfold Form.object_parse, Terms.tips.
  destruct (Form.number_int_min0 Form.f_morning_cash _),
           (Form.number_int_min0 Form.f_evening_cash _),
           (Form.number_int_min0 Form.f_total_orders _),
           (Form.number_int_min0 Form.f_cash_orders _),
           (Form.number_int_min0 Form.f_online_tips _).
  reflexivity.
Qed.

Lemma object_aborted_issues (r : Form.raw_values) :
  fst (Form.object_parse r) = Form.aborted -> snd (Form.object_parse r) <> [].
Proof.
  rewrite object_parse_eq. cbn [fst snd]. intros H E.
  repeat (apply app_eq_nil in E; destruct E as [? E]).
  repeat (apply merge_aborted in H; destruct H as [H | H]);
    eapply number_aborted_issues; eassumption.
Qed.

Lemma js_lt_not_le (x y : Form.jsnum) :
  Form.js_lt x y = true -> Form.js_le y x = false.
Proof.
  unfold Form.js_lt. destruct x, y; try discriminate;
    intros H; apply negb_true_iff in H; exact H.
Qed.

(** What the schema answers, by the status of the object parse. *)
Lemma formSchema_rejects (r : Form.raw_values) :
  snd (Form.object_parse r) <> [] \/
  (fst (Form.object_parse r) <> Form.aborted /\ Terms.cash_exceeds_total r) ->
  exists errors,
    Form.formSchema r = inr errors /\ errors <> [] /\
    incl (snd (Form.object_parse r)) errors /\
    (fst (Form.object_parse r) <> Form.aborted -> Terms.cash_exceeds_total r ->
     In (Form.mk_issue Form.f_cash_orders Form.custom) errors).
Proof.
  intros H. unfold Form.formSchema.
  pose proof (object_aborted_issues r) as Hab.
  destruct (Form.object_parse r) as [s found]. cbn [fst snd] in *.
  assert (Hcase : s = Form.aborted \/ s <> Form.aborted)
    by (destruct s; [right | right | left]; congruence).
  destruct Hcase as [-> | Hs].
  - exists found. repeat split; [now apply Hab | apply incl_refl | congruence].
  - destruct (Form.js_le (Form.r_cash_orders r) (Form.r_total_orders r)) eqn:Hle.
    + assert (Hne : found <> []).
      { destruct H as [H | [_ H]]; [exact H |].
        apply js_lt_not_le in H. congruence. }
      exists found. destruct s; try congruence;
        (destruct found; [congruence |]);
        (repeat split; [discriminate | apply incl_refl |]);
        intros _ Hx; apply js_lt_not_le in Hx; congruence.
    + exists (found ++ [Form.mk_issue Form.f_cash_orders Form.custom]).
      assert (Hne : found ++ [Form.mk_issue Form.f_cash_orders Form.custom] <> [])
        by (destruct found; discriminate).
      destruct s; try congruence;
        (destruct (found ++ [Form.mk_issue Form.f_cash_orders Form.custom]) eqn:E;
         [congruence |]);
        (repeat split; [discriminate | | ]);
        try (rewrite <- E; apply incl_appl, incl_refl);
        intros _ _; rewrite <- E; apply in_or_app; right; now left.
Qed.

(** C7, as stated, fails. The whole numbers 9007199254740993 and
    9007199254740992 typed as cash orders and total are both read as
    2^53 by the coercion, so the comparison passes although the cash
    orders exceed the total, and the insert is sent; the negative number
    -1e-400 typed as morning cash is read as zero and passes as well. *)
Lemma rounded_input_reaches_store_counterexample :
  (Notions.typed_value "9007199254740993" = Some (inject_Z 9007199254740993) /\
   Notions.typed_value "9007199254740992" = Some (inject_Z 9007199254740992) /\
   9007199254740992 < 9007199254740993 /\
   Dashboard.handleSubmit_typed (Dashboard.fixed_zone 0) Notions.some_session
     0 0 "id-1"
     (Notions.typed "0" "0" "9007199254740992" "9007199254740993" "0")
     Terms.empty_world
   = (Dashboard.mk_world []
        [Dashboard.call_insert
           (Store.mk_new_row Notions.some_session 0 0 0
              9007199254740992 9007199254740992 0)],
      Dashboard.save_failed numeric_value_out_of_range)) /\
  ((exists q, Notions.typed_value "-1e-400" = Some q /\ (q < 0)%Q) /\
   Dashboard.handleSubmit_typed (Dashboard.fixed_zone 0) Notions.some_session
     0 0 "id-1" (Notions.typed "-1e-400" "0" "0" "0" "0") Terms.empty_world
   = (Dashboard.mk_world []
        [Dashboard.call_insert
           (Store.mk_new_row Notions.some_session 0 0 0 0 0 0)],
      Dashboard.save_failed insufficient_privilege)).
Proof.
  split.
  - split; [vm_compute; reflexivity |]. split; [vm_compute; reflexivity |].
    split; [lia | vm_compute; reflexivity].
  - split; [| vm_compute; reflexivity].
    eexists. split; [vm_compute; reflexivity | reflexivity].
Qed.

(** C7 (amended). A submission in which some input, as the number the
    schema coerces it to, is negative, or in which the coerced cash
    orders exceed the coerced total, is rejected by validation: the
    handler is not run, no call reaches the store, and the errors are
    attached to fields -- a "too small" issue on every negative field
    and, when the object itself parsed, the refinement's issue on
    [cash_orders]. *)
Theorem invalid_submission_never_reaches_store
    (tz : Dashboard.zone) (session : string) (now server_now : Z)
    (fresh_id : string) (t : Form.typed_values) (w : Dashboard.world) :
  Terms.invalid_input (Form.coerce t) ->
  exists errors,
    Dashboard.handleSubmit_typed tz session now server_now fresh_id t w
      = (w, Dashboard.field_errors errors) /\
    errors <> [] /\
    (Terms.negative (Form.Number (Form.t_morning_cash t)) ->
       In (Form.mk_issue Form.f_morning_cash Form.too_small) errors) /\
    (Terms.negative (Form.Number (Form.t_evening_cash t)) ->
       In (Form.mk_issue Form.f_evening_cash Form.too_small) errors) /\
    (Terms.negative (Form.Number (Form.t_total_orders t)) ->
       In (Form.mk_issue Form.f_total_orders Form.too_small) errors) /\
    (Terms.negative (Form.Number (Form.t_cash_orders t)) ->
       In (Form.mk_issue Form.f_cash_orders Form.too_small) errors) /\
    (Terms.negative (Terms.tips (Form.coerce t)) ->
       In (Form.mk_issue Form.f_online_tips Form.too_small) errors) /\
    (Form.js_lt (Form.Number (Form.t_total_orders t))
                (Form.Number (Form.t_cash_orders t)) = true ->
       fst (Form.object_parse (Form.coerce t)) <> Form.aborted ->
       In (Form.mk_issue Form.f_cash_orders Form.custom) errors).
Proof.
  unfold Dashboard.handleSubmit_typed.
  change (Form.Number (Form.t_morning_cash t))
    with (Form.r_morning_cash (Form.coerce t)).
  change (Form.Number (Form.t_evening_cash t))
    with (Form.r_evening_cash (Form.coerce t)).
  change (Form.Number (Form.t_total_orders t))
    with (Form.r_total_orders (Form.coerce t)).
  change (Form.Number (Form.t_cash_orders t))
    with (Form.r_cash_orders (Form.coerce t)).
  fold (Terms.cash_exceeds_total (Form.coerce t)).
  generalize (Form.coerce t). intros r.
  intros Hbad.
  assert (Hfound :
    (Terms.negative (Form.r_morning_cash r) ->
       In (Form.mk_issue Form.f_morning_cash Form.too_small) (snd (Form.object_parse r))) /\
    (Terms.negative (Form.r_evening_cash r) ->
       In (Form.mk_issue Form.f_evening_cash Form.too_small) (snd (Form.object_parse r))) /\
    (Terms.negative (Form.r_total_orders r) ->
       In (Form.mk_issue Form.f_total_orders Form.too_small) (snd (Form.object_parse r))) /\
    (Terms.negative (Form.r_cash_orders r) ->
       In (Form.mk_issue Form.f_cash_orders Form.too_small) (snd (Form.object_parse r))) /\
    (Terms.negative (Terms.tips r) ->
       In (Form.mk_issue Form.f_online_tips Form.too_small) (snd (Form.object_parse r)))).
  { rewrite object_parse_eq. cbn [snd].
    repeat split; intros Hx; rewrite !in_app_iff;
      pose proof (negative_issue Form.f_morning_cash _ Hx);
      pose proof (negative_issue Form.f_evening_cash _ Hx);
      pose proof (negative_issue Form.f_total_orders _ Hx);
      pose proof (negative_issue Form.f_cash_orders _ Hx);
      pose proof (negative_issue Form.f_online_tips _ Hx); tauto. }
  destruct Hfound as (F1 & F2 & F3 & F4 & F5).
  assert (Hpre : snd (Form.object_parse r) <> [] \/
                 (fst (Form.object_parse r) <> Form.aborted /\
                  Terms.cash_exceeds_total r)).
  { assert (Hne : forall i, In i (snd (Form.object_parse r)) ->
                            snd (Form.object_parse r) <> []).
    { intros i Hi E. rewrite E in Hi. exact Hi. }
    destruct Hbad as [H | [H | [H | [H | [H | H]]]]];
      [left; eapply Hne; eauto ..|].
    destruct (Form.object_parse r) as [s found] eqn:E. cbn [fst snd].
    destruct s; [right | right | left].
    - split; [discriminate | exact H].
    - split; [discriminate | exact H].
    - pose proof (object_aborted_issues r) as Hab. rewrite E in Hab.
      now apply Hab. }
  destruct (formSchema_rejects r Hpre) as (errors & Hs & Hne & Hincl & Hcustom).
  exists errors. unfold Dashboard.handleSubmit. rewrite Hs.
  split; [reflexivity |]. split; [exact Hne |].
  repeat split; intros; first [now apply Hcustom | apply Hincl; auto].
Qed.

Lemma invalid_submission_never_reaches_store_witness :
  exists errors,
    Dashboard.handleSubmit_typed (Dashboard.fixed_zone 3600000)
      Notions.some_session 0 0 "id-1"
      (Notions.typed "0" "0" "10" "11" "0") Terms.empty_world
      = (Terms.empty_world, Dashboard.field_errors errors) /\
    In (Form.mk_issue Form.f_cash_orders Form.custom) errors.
Proof.
  destruct (invalid_submission_never_reaches_store (Dashboard.fixed_zone 3600000)
              Notions.some_session 0 0 "id-1"
              (Notions.typed "0" "0" "10" "11" "0") Terms.empty_world)
    as (errors & H & _ & _ & _ & _ & _ & _ & Hc).
  - unfold Terms.invalid_input, Terms.cash_exceeds_total.
    do 5 right. vm_compute. reflexivity.
  - exists errors. split; [exact H |].
    apply Hc; [vm_compute; reflexivity | vm_compute; discriminate].
Defined.

(** ** The store: insert, policies, keys *)



(** What the routine on write changes and what it keeps. *)
Lemma compute_on_write_inv (new r : Store.row) :
  Store.compute_on_write new = Ok r ->
  Store.id r = Store.id new /\ Store.user_id r = Store.user_id new /\
  Store.date r = Store.date new /\
  Store.morning_cash r = Store.morning_cash new /\
  Store.evening_cash r = Store.evening_cash new /\
  Store.total_orders r = Store.total_orders new /\
  Store.cash_orders r = Store.cash_orders new /\
  Store.online_tips r = Store.online_tips new /\
  Terms.computed_earnings r = Ok (Terms.stored_earnings r).
Proof.
  unfold Store.compute_on_write, Terms.computed_earnings, Terms.stored_earnings.
  intros H. apply bind_inv in H as (e & He & H). injection H as <-.
  cbn. rewrite He. destruct e. repeat split; reflexivity.
Qed.


Lemma insert_ok_inv (requester fresh_id : string) (now : Z)
    (n : Store.new_row) (t t' : Store.table) :
  Store.insert requester fresh_id now n t = Ok t' ->
  exists r,
    Store.compute_on_write (Store.row_of_insert fresh_id now n) = Ok r /\
    t' = t ++ [r] /\
    Store.n_user_id n = "denis"%string /\
    Store.day_taken (Store.n_user_id n) (Store.n_date n) t = false /\
    Store.id_taken fresh_id t = false.
Proof.
  unfold Store.insert. intros H.
  apply bind_inv in H as (u & _ & H).
  apply bind_inv in H as (r & Hr & H).
  pose proof (compute_on_write_inv _ _ Hr) as (Hid & Hu & Hd & _).
  cbn [Store.row_of_insert Store.id Store.user_id Store.date] in Hid, Hu, Hd.
  destruct (Store.policy_insert requester r) eqn:Hp; cbn [negb] in H;
    [| discriminate].
  destruct (Store.id_taken _ t || Store.day_taken _ _ t) eqn:Hk; [discriminate |].
  injection H as <-. apply orb_false_iff in Hk as [Hki Hkd].
  unfold Store.policy_insert in Hp. apply String.eqb_eq in Hp.
  rewrite Hid in Hki. rewrite Hu, Hd in Hkd. rewrite Hu in Hp.
  exists r. repeat split; assumption.
Qed.

(** C6. Every record created through the insert operation carries, in its
    four derived columns, what the calculator returns on the raw columns
    of the same record: the routine on write computes them, the client
    sending the raw fields only. Hence "every stored record carries the
    calculator's outputs on its raw columns" is an invariant of the table
    under every submission of the form, whatever the session. *)
Theorem inserted_record_carries_computed_earnings :
  (forall (requester fresh_id : string) (now : Z) (n : Store.new_row)
          (t t' : Store.table),
     Store.insert requester fresh_id now n t = Ok t' ->
     exists r,
       t' = t ++ [r] /\
       Store.morning_cash r = Store.n_morning_cash n /\
       Store.evening_cash r = Store.n_evening_cash n /\
       Store.total_orders r = Store.n_total_orders n /\
       Store.cash_orders r = Store.n_cash_orders n /\
       Calculator.calculate_earnings
         (Store.n_total_orders n) (Store.n_cash_orders n)
         (Store.n_morning_cash n) (Store.n_evening_cash n)
       = Ok (Terms.stored_earnings r)) /\
  (forall (tz : Dashboard.zone) (session : string) (now server_now : Z)
          (fresh_id : string) (raw : Form.raw_values) (w : Dashboard.world),
     (forall r, In r (Dashboard.tbl w) ->
                Terms.computed_earnings r = Ok (Terms.stored_earnings r)) ->
     forall r,
       In r (Dashboard.tbl
               (fst (Dashboard.handleSubmit tz session now server_now
                       fresh_id raw w))) ->
       Terms.computed_earnings r = Ok (Terms.stored_earnings r)).
Proof.
  assert (Hstore : forall requester fresh_id now n t t',
            Store.insert requester fresh_id now n t = Ok t' ->
            exists r,
              t' = t ++ [r] /\
              Store.morning_cash r = Store.n_morning_cash n /\
              Store.evening_cash r = Store.n_evening_cash n /\
              Store.total_orders r = Store.n_total_orders n /\
              Store.cash_orders r = Store.n_cash_orders n /\
              Terms.computed_earnings r = Ok (Terms.stored_earnings r)).
  { intros requester fresh_id now n t t' H.
    pose proof (insert_ok_inv _ _ _ _ _ _ H) as (r & Hr & Ht & _).
    pose proof (compute_on_write_inv _ _ Hr)
      as (_ & _ & _ & Hm & He & Hto & Hc & _ & Hcomp).
    exists r. repeat split; assumption. }
  split.
  - intros requester fresh_id now n t t' H.
    destruct (Hstore _ _ _ _ _ _ H) as (r & Ht & Hm & He & Hto & Hc & Hcomp).
    exists r. repeat split; try assumption.
    unfold Terms.computed_earnings in Hcomp.
    now rewrite Hm, He, Hto, Hc in Hcomp.
  - intros tz session now server_now fresh_id raw w Hinv r.
    unfold Dashboard.handleSubmit, Dashboard.onSubmit, Dashboard.insertMutation.
    destruct (Form.formSchema raw) as [v | errors]; [| apply Hinv].
    destruct (Store.insert _ _ _ _ _) as [t | e] eqn:Hi;
      cbn [fst Dashboard.tbl]; [| apply Hinv].
    destruct (Hstore _ _ _ _ _ _ Hi) as (r' & -> & _ & _ & _ & _ & Hcomp).
    intros Hin. apply in_app_or in Hin as [Hin | [<- | []]];
      [now apply Hinv | exact Hcomp].
Qed.

Lemma inserted_record_carries_computed_earnings_witness :
  exists r,
    Store.insert Notions.some_session "id-1" 0
      (Store.mk_new_row "denis" 0 200 850 25 10 0) [] = Ok [r] /\
    Terms.stored_earnings r = Calculator.mk_earnings 1200 825 0 2025.
Proof.
  destruct (proj1 inserted_record_carries_computed_earnings
              Notions.some_session "id-1"%string 0
              (Store.mk_new_row "denis" 0 200 850 25 10 0) []
              [Store.mk_row "id-1" "denis" 0 200 850 25 10 0 1200 825 0 2025 0 0]
              eq_refl)
    as (r & Ht & _ & _ & _ & _ & Hcalc).
  exists r. split.
  - cbn [app] in Ht. rewrite <- Ht. reflexivity.
  - assert (Hc : Calculator.calculate_earnings 25 10 200 850
                 = Ok (Calculator.mk_earnings 1200 825 0 2025)) by reflexivity.
    cbn [Store.n_total_orders Store.n_cash_orders Store.n_morning_cash
         Store.n_evening_cash] in Hcalc.
    rewrite Hc in Hcalc. injection Hcalc as H1 H2 H3 H4.
    unfold Terms.stored_earnings. now rewrite <- H1, <- H2, <- H3, <- H4.
Defined.

Lemma insert_desc_In (r x : Store.row) (l : list Store.row) :
  In x (Store.insert_desc r l) <-> x = r \/ In x l.
Proof.
  induction l as [| y l IH]; cbn [Store.insert_desc In].
  - intuition congruence.
  - destruct (Store.date y <? Store.date r); cbn [In]; [intuition congruence |].
    rewrite IH. intuition congruence.
Qed.




(** ** One record per account and day *)

Lemma day_taken_in (u : string) (d : Store.day) (t : Store.table) (r : Store.row) :
  In r t -> Store.user_id r = u -> Store.date r = d ->
  Store.day_taken u d t = true.
Proof.
  intros Hin Hu Hd. unfold Store.day_taken. apply existsb_exists.
  exists r. split; [exact Hin |].
  rewrite Hu, Hd, String.eqb_refl, Z.eqb_refl. reflexivity.
Qed.

Lemma id_free (i : string) (t : Store.table) :
  Store.id_taken i t = false -> ~ In i (map Store.id t).
Proof.
  unfold Store.id_taken. intros H Hin.
  apply in_map_iff in Hin as (r & Hr & Hin).
  assert (Ht : existsb (fun r => String.eqb (Store.id r) i) t = true).
  { apply existsb_exists. exists r. split; [exact Hin |].
    rewrite Hr. apply String.eqb_refl. }
  congruence.
Qed.

Lemma day_free (u : string) (d : Store.day) (t : Store.table) :
  Store.day_taken u d t = false ->
  ~ In (u, d) (map (fun r => (Store.user_id r, Store.date r)) t).
Proof.
  intros H Hin. apply in_map_iff in Hin as (r & Hr & Hin).
  injection Hr as Hu Hd.
  rewrite (day_taken_in u d t r Hin Hu Hd) in H. discriminate.
Qed.

Lemma NoDup_map_snoc {A B : Type} (f : A -> B) (l : list A) (x : A) :
  NoDup (map f l) -> ~ In (f x) (map f l) -> NoDup (map f (l ++ [x])).
Proof.
  intros Hl Hx. rewrite map_app. cbn [map].
  apply NoDup_rev in Hl. rewrite <- (rev_involutive (map f l ++ [f x])).
  apply NoDup_rev. rewrite rev_app_distr. cbn [rev app].
  constructor; [| exact Hl]. now rewrite <- in_rev.
Qed.

Lemma filtered_keys_unique {K : Type} (key : Store.row -> K)
    (keep : Store.row -> bool) (t : Store.table) :
  NoDup (map key t) -> NoDup (map key (filter keep t)).
Proof.
  intros Huniq. induction t as [| r t IH]; cbn [map filter]; [constructor |].
  apply NoDup_cons_iff in Huniq as [Hfresh Hrest].
  destruct (keep r); [| now apply IH].
  cbn [map]. apply NoDup_cons; [| now apply IH].
  intros Hin. apply Hfresh. apply in_map_iff in Hin as (y & Hy & Hin).
  apply filter_In in Hin as [Hin _]. apply in_map_iff. now exists y.
Qed.

(** The row an accepted insert appends, and why it was accepted. *)
Lemma insert_ok_row (requester fresh_id : string) (now : Z)
    (n : Store.new_row) (t t' : Store.table) :
  Store.insert requester fresh_id now n t = Ok t' ->
  exists r,
    t' = t ++ [r] /\
    Store.id r = fresh_id /\ Store.user_id r = Store.n_user_id n /\
    Store.date r = Store.n_date n /\
    Store.id_taken fresh_id t = false /\
    Store.day_taken (Store.n_user_id n) (Store.n_date n) t = false.
Proof.
  intros H. apply insert_ok_inv in H as (r & Hr & Ht & _ & Hd & Hi).
  apply compute_on_write_inv in Hr as (Hid & Hu & Hda & _).
  exists r. repeat split; assumption.
Qed.

Lemma insert_keeps_keys_unique (requester fresh_id : string) (now : Z)
    (n : Store.new_row) (t t' : Store.table) :
  Store.insert requester fresh_id now n t = Ok t' ->
  Notions.keys_unique t -> Notions.keys_unique t'.
Proof.
  intros H [Hid Hday].
  apply insert_ok_row in H as (r & -> & Hi & Hu & Hd & Hfi & Hfd).
  split.
  - apply NoDup_map_snoc; [exact Hid |]. rewrite Hi. now apply id_free.
  - apply NoDup_map_snoc; [exact Hday |]. rewrite Hu, Hd. now apply day_free.
Qed.

Lemma handleSubmit_table (tz : Dashboard.zone) (session : string)
    (now server_now : Z)
    (fresh_id : string) (raw : Form.raw_values) (w : Dashboard.world) :
  Dashboard.tbl (fst (Dashboard.handleSubmit tz session now server_now fresh_id raw w))
    = Dashboard.tbl w \/
  exists n,
    Store.insert session fresh_id server_now n (Dashboard.tbl w)
      = Ok (Dashboard.tbl
              (fst (Dashboard.handleSubmit tz session now server_now fresh_id raw w))).
Proof.
  unfold Dashboard.handleSubmit, Dashboard.onSubmit, Dashboard.insertMutation.
  destruct (Form.formSchema raw) as [v | errors]; [| now left].
  destruct (Store.insert _ _ _ _ _) eqn:Hi; [| now left].
  right. eexists. cbn [fst Dashboard.tbl]. exact Hi.
Qed.

Lemma submission_keeps_keys_unique (tz : Dashboard.zone) (session : string)
    (now server_now : Z)
    (fresh_id : string) (raw : Form.raw_values) (w : Dashboard.world) :
  Notions.keys_unique (Dashboard.tbl w) ->
  Notions.keys_unique
    (Dashboard.tbl (fst (Dashboard.handleSubmit tz session now server_now
                           fresh_id raw w))).
Proof.
  intros Hk.
  destruct (handleSubmit_table tz session now server_now fresh_id raw w)
    as [-> | [n Hi]]; [exact Hk |].
  exact (insert_keeps_keys_unique _ _ _ _ _ _ Hi Hk).
Qed.

(** The calendar day of the browser is the one day the instant lies in. *)
Lemma on_local_day_iff (tz : Dashboard.zone) (now : Z) (d : Store.day) :
  Notions.on_local_day tz now d <-> d = Dashboard.local_day tz now.
Proof.
  unfold Notions.on_local_day, Dashboard.local_day, Dashboard.date_ms,
         Dashboard.ms_per_day.
  generalize (Dashboard.local_time tz now). intros l.
  pose proof (Z.div_mod l 86400000 ltac:(lia)).
  pose proof (Z.mod_pos_bound l 86400000 ltac:(lia)).
  lia.
Qed.




(** ** The weekly chart *)

Lemma in_last_week_iff (tz : Dashboard.zone) (now : Z) (e : Store.row) :
  Dashboard.in_last_week tz now e = true <->
  Dashboard.subDays tz now 7 <= Dashboard.date_ms (Store.date e).
Proof.
  unfold Dashboard.in_last_week. rewrite Z.geb_leb, Z.leb_le. reflexivity.
Qed.

(** Midnights UTC at or after an instant are those of the days from
    [first_day_from] on. *)
Lemma first_day_from_le (instant : Z) (d : Store.day) :
  instant <= Dashboard.date_ms d <-> Terms.first_day_from instant <= d.
Proof.
  unfold Terms.first_day_from, Dashboard.date_ms, Dashboard.ms_per_day.
  pose proof (Z.div_mod (- instant) 86400000 ltac:(lia)).
  pose proof (Z.mod_pos_bound (- instant) 86400000 ltac:(lia)).
  lia.
Qed.

Lemma first_day_from_week (now : Z) :
  Terms.first_day_from (now - 7 * Dashboard.ms_per_day)
  = Terms.first_charted_day now.
Proof.
  unfold Terms.first_day_from, Terms.first_charted_day, Dashboard.utc_day,
         Dashboard.ms_per_day.
  pose proof (Z.div_mod (- (now - 7 * 86400000)) 86400000 ltac:(lia)).
  pose proof (Z.mod_pos_bound (- (now - 7 * 86400000)) 86400000 ltac:(lia)).
  pose proof (Z.div_mod now 86400000 ltac:(lia)).
  pose proof (Z.mod_pos_bound now 86400000 ltac:(lia)).
  destruct (Z.eqb_spec (now mod 86400000) 0); lia.
Qed.

(** In a zone whose clocks never change, seven calendar days are seven
    times twenty-four hours. *)
Lemma fixed_zone_subDays (offset t amount : Z) :
  Dashboard.subDays (Dashboard.fixed_zone offset) t amount
  = t - amount * Dashboard.ms_per_day.
Proof.
  unfold Dashboard.subDays, Dashboard.local_time, Dashboard.fixed_zone.
  cbn [Dashboard.utc_of_local Dashboard.offset_at]. lia.
Qed.

Lemma StronglySorted_filter {A : Type} (R : A -> A -> Prop) (p : A -> bool)
    (l : list A) :
  StronglySorted R l -> StronglySorted R (filter p l).
Proof.
  induction 1 as [| a l Hs IH Ha]; simpl; [constructor |].
  destruct (p a); [| exact IH].
  constructor; [exact IH |].
  rewrite Forall_forall in *. intros x Hx. apply filter_In in Hx as [Hx _].
  now apply Ha.
Qed.

Lemma StronglySorted_snoc {A : Type} (R : A -> A -> Prop) (l : list A) (a : A) :
  StronglySorted R l -> Forall (fun x => R x a) l -> StronglySorted R (l ++ [a]).
Proof.
  induction 1 as [| b l Hs IH Hb]; intros Hall; simpl.
  - constructor; constructor.
  - inversion Hall as [| ? ? Hba Hrest]; subst.
    constructor; [now apply IH |].
    apply Forall_app. split; [exact Hb | now constructor].
Qed.

Lemma StronglySorted_rev {A : Type} (R : A -> A -> Prop) (l : list A) :
  StronglySorted R l -> StronglySorted (fun a b => R b a) (rev l).
Proof.
  induction 1 as [| a l Hs IH Ha]; simpl; [constructor |].
  apply StronglySorted_snoc; [exact IH |].
  rewrite Forall_forall in *. intros x Hx. apply in_rev in Hx. now apply Ha.
Qed.

(** [ORDER BY date DESC] returns its input, newest first. *)
Lemma insert_desc_descending (r : Store.row) (l : list Store.row) :
  Dashboard.descending l -> Dashboard.descending (Store.insert_desc r l).
Proof.
  unfold Dashboard.descending.
  induction 1 as [| y l Hs IH Hy]; simpl.
  - constructor; constructor.
  - destruct (Z.ltb_spec (Store.date y) (Store.date r)).
    + constructor; [now constructor |].
      constructor; [lia |].
      rewrite Forall_forall in *. intros x Hx. specialize (Hy x Hx). lia.
    + constructor; [exact IH |].
      rewrite Forall_forall in *. intros x Hx.
      apply insert_desc_In in Hx as [-> | Hx]; [lia | now apply Hy].
Qed.

Lemma fetched_list_descending (session : string) (w : Dashboard.world) :
  Dashboard.descending (snd (Dashboard.fetchEarnings session w)).
Proof.
  unfold Dashboard.fetchEarnings, Store.select_order_by_date_desc,
         Store.order_by_date_desc. cbn [snd].
  induction (filter (Store.policy_select session) (Dashboard.tbl w)) as [| r l IH];
    simpl; [constructor | now apply insert_desc_descending].
Qed.

(** C9, as stated, fails. With the browser on UTC and the clock at
    midnight exactly, and with the browser one hour east of UTC half an
    hour after local midnight, today is day 8 and the chart shows the
    record of day 1, which is earlier than today - 6 days. *)
Lemma weekly_chart_window_counterexample :
  (Dashboard.local_day (Dashboard.fixed_zone 0) (8 * Dashboard.ms_per_day) = 8 /\
   In (Terms.record_of "id-1" "denis" 1)
      (Dashboard.charted (Dashboard.fixed_zone 0) (8 * Dashboard.ms_per_day)
         [Terms.record_of "id-1" "denis" 1]) /\
   ~ (8 - 6 <= Store.date (Terms.record_of "id-1" "denis" 1))) /\
  (Dashboard.local_day (Dashboard.fixed_zone 3600000)
     (8 * Dashboard.ms_per_day - 1800000) = 8 /\
   In (Terms.record_of "id-1" "denis" 1)
      (Dashboard.charted (Dashboard.fixed_zone 3600000)
         (8 * Dashboard.ms_per_day - 1800000)
         [Terms.record_of "id-1" "denis" 1]) /\
   ~ (8 - 6 <= Store.date (Terms.record_of "id-1" "denis" 1))).
Proof.
  split; (split; [reflexivity |]; split; [now left | cbn; lia]).
Qed.

(** C9 (amended). For every fetched list, newest first, and every time
    zone of the browser, the weekly chart shows exactly the records whose
    date, taken as midnight UTC, is not earlier than the instant
    [subDays] gives: the same local time of day seven local calendar days
    before the current instant. They are displayed in ascending date
    order, the filtered list being reversed. When the clocks of the zone
    did not change in between, so that this instant is seven times
    twenty-four hours back, these are the records dated at or after the
    UTC day of the current instant minus 6, or minus 7 when the current
    instant is midnight UTC exactly. *)
Theorem weekly_chart_window (tz : Dashboard.zone) (format_d_M : Z -> string)
    (now : Z) (earnings : list Store.row) :
  Dashboard.descending earnings ->
  Dashboard.chartData tz format_d_M now earnings
    = map (Dashboard.point_of format_d_M) (Dashboard.charted tz now earnings) /\
  (forall e, In e (Dashboard.charted tz now earnings) <->
             In e earnings /\
             Dashboard.subDays tz now 7 <= Dashboard.date_ms (Store.date e)) /\
  (forall e, In e (Dashboard.charted tz now earnings) <->
             In e earnings /\
             Terms.first_day_from (Dashboard.subDays tz now 7) <= Store.date e) /\
  Dashboard.ascending (Dashboard.charted tz now earnings) /\
  (Dashboard.subDays tz now 7 = now - 7 * Dashboard.ms_per_day ->
   (now mod Dashboard.ms_per_day <> 0 ->
    forall e, In e (Dashboard.charted tz now earnings) <->
              In e earnings /\ Dashboard.utc_day now - 6 <= Store.date e) /\
   (now mod Dashboard.ms_per_day = 0 ->
    forall e, In e (Dashboard.charted tz now earnings) <->
              In e earnings /\ Dashboard.utc_day now - 7 <= Store.date e)).
Proof.
  intros Hdesc.
  assert (Hin : forall e, In e (Dashboard.charted tz now earnings) <->
                          In e earnings /\
                          Dashboard.subDays tz now 7
                          <= Dashboard.date_ms (Store.date e)).
  { intros e. unfold Dashboard.charted.
    rewrite <- in_rev, filter_In, in_last_week_iff. reflexivity. }
  split; [| split; [exact Hin | split; [| split]]].
  - unfold Dashboard.chartData, Dashboard.charted. now rewrite map_rev.
  - intros e. rewrite Hin, first_day_from_le. reflexivity.
  - unfold Dashboard.ascending, Dashboard.charted.
    apply (StronglySorted_rev (fun a b => Store.date b <= Store.date a)).
    now apply StronglySorted_filter.
  - intros Hweek. split; intros Hmod e; rewrite Hin, Hweek, first_day_from_le,
      first_day_from_week; unfold Terms.first_charted_day.
    + destruct (Z.eqb_spec (now mod Dashboard.ms_per_day) 0); [contradiction |].
      reflexivity.
    + rewrite Hmod. reflexivity.
Qed.

(** Prague, 2025-10-27, 01:30 local time, the night after the clocks went
    back: seven calendar days earlier at 01:30 summer time is
    2025-10-19T23:30Z, so the record of 2025-10-20 (day 20381) is charted,
    although it lies eight UTC days before the current one minus 6.
    In a zone without clock changes the chart starts at the UTC day
    minus 6. *)
Lemma weekly_chart_window_witness :
  Dashboard.charted Terms.prague_autumn_2025 1761525000000
    (snd (Dashboard.fetchEarnings "denis"
            (Dashboard.mk_world
               [Terms.record_of "a" "denis" 20381;
                Terms.record_of "b" "denis" 20388;
                Terms.record_of "c" "denis" 20380;
                Terms.record_of "d" Notions.some_session 20387] [])))
  = [Terms.record_of "a" "denis" 20381; Terms.record_of "b" "denis" 20388] /\
  Dashboard.ascending
    (Dashboard.charted Terms.prague_autumn_2025 1761525000000
       (snd (Dashboard.fetchEarnings "denis"
               (Dashboard.mk_world
                  [Terms.record_of "a" "denis" 20381;
                   Terms.record_of "b" "denis" 20388;
                   Terms.record_of "c" "denis" 20380;
                   Terms.record_of "d" Notions.some_session 20387] [])))) /\
  (In (Terms.record_of "a" "denis" 1)
      (Dashboard.charted (Dashboard.fixed_zone 3600000) 777600001
         [Terms.record_of "b" "denis" 3; Terms.record_of "a" "denis" 1])
   <-> In (Terms.record_of "a" "denis" 1)
          [Terms.record_of "b" "denis" 3; Terms.record_of "a" "denis" 1] /\
       Dashboard.utc_day 777600001 - 6 <= 1).
Proof.
  split; [reflexivity |]. split.
  - apply (weekly_chart_window Terms.prague_autumn_2025 (fun _ => EmptyString)
             1761525000000).
    apply fetched_list_descending.
  - pose proof (weekly_chart_window (Dashboard.fixed_zone 3600000)
                  (fun _ => EmptyString) 777600001
                  [Terms.record_of "b" "denis" 3; Terms.record_of "a" "denis" 1])
      as Hw.
    destruct Hw as (_ & _ & _ & _ & Hfixed).
    + repeat constructor; cbn; lia.
    + destruct (Hfixed (fixed_zone_subDays 3600000 777600001 7)) as [Hnot _].
      apply (Hnot ltac:(discriminate) (Terms.record_of "a" "denis" 1)).
Defined.

(** * Further properties of the code *)

(** ** The calculator: ranges, bounds and how the amounts move *)

(** A returned row is made of the specification's values, each of which
    passed its range check. *)
Lemma calculate_earnings_inv (t c m e : Z) (r : Calculator.earnings) :
  Calculator.calculate_earnings t c m e = Ok r ->
  r = Calculator.mk_earnings
        ((e - m) + Calculator.tier c) (Calculator.tier (t - c))
        (Calculator.bonus t)
        ((e - m) + Calculator.tier c + Calculator.tier (t - c)
         + Calculator.bonus t) /\
  Int4.in_range ((e - m) + Calculator.tier c) = true /\
  Int4.in_range (Calculator.tier (t - c)) = true /\
  Int4.in_range (Calculator.bonus t) = true /\
  Int4.in_range ((e - m) + Calculator.tier c + Calculator.tier (t - c)
                 + Calculator.bonus t) = true.
Proof.
  unfold Calculator.calculate_earnings.
  rewrite expected_cash_checked, online_earnings_checked, bonus_earnings_checked.
  unfold Int4.add, Int4.sub. intros H.
  apply bind_inv in H as (ec & H1 & H). apply checked_inv in H1 as [-> B1].
  apply bind_inv in H as (d & H2 & H). apply checked_inv in H2 as [-> B2].
  apply bind_inv in H as (ca & H3 & H). apply checked_inv in H3 as [-> B3].
  apply bind_inv in H as (on & H4 & H). apply checked_inv in H4 as [-> B4].
  apply bind_inv in H as (bo & H5 & H). apply checked_inv in H5 as [-> B5].
  apply bind_inv in H as (s & H6 & H). apply checked_inv in H6 as [-> B6].
  apply bind_inv in H as (to & H7 & H). apply checked_inv in H7 as [-> B7].
  injection H as <-.
  rewrite !in_range_iff. repeat split; lia.
Qed.

Lemma tier_closed_form (n : Z) :
  Calculator.tier n = 55 * n + 20 * Z.max 0 (n - 30).
Proof. unfold Calculator.tier. destruct (Z.leb_spec n 30); lia. Qed.

(** X1. Whatever the calculator returns fits [INTEGER]: no amount of a
    returned row has wrapped around or left the 32-bit range. *)
Theorem returned_amounts_fit_integer (t c m e : Z) (r : Calculator.earnings) :
  Calculator.calculate_earnings t c m e = Ok r ->
  Int4.in_range (Calculator.cash_earnings r) = true /\
  Int4.in_range (Calculator.online_earnings r) = true /\
  Int4.in_range (Calculator.bonus_earnings r) = true /\
  Int4.in_range (Calculator.total_earnings r) = true.
Proof.
  intros H. apply calculate_earnings_inv in H as (-> & B1 & B2 & B3 & B4).
  cbn. auto.
Qed.

Lemma returned_amounts_fit_integer_witness :
  Int4.in_range 2425 = true /\ Int4.in_range 2900 = true.
Proof.
  destruct (returned_amounts_fit_integer 40 35 100 500
              (Calculator.mk_earnings 2425 275 200 2900) eq_refl)
    as (H1 & _ & _ & H4).
  split; [exact H1 | exact H4].
Defined.

(** X2. On an input with [0 <= cash_orders <= total_orders] a returned
    row has non-negative online and bonus earnings, and what it pays for
    the orders (the total without the change of the drawer) lies between
    55 per order and 55 per order plus 40 for each order beyond the
    30th. *)
Theorem order_payment_bounds (t c m e : Z) (r : Calculator.earnings) :
  0 <= c <= t ->
  Calculator.calculate_earnings t c m e = Ok r ->
  0 <= Calculator.online_earnings r /\
  0 <= Calculator.bonus_earnings r /\
  55 * t <= Notions.order_payment r m e <= 55 * t + 40 * Z.max 0 (t - 30).
Proof.
  intros Hc H. apply calculate_earnings_inv in H as (-> & _).
  unfold Notions.order_payment.
  cbn [Calculator.online_earnings Calculator.bonus_earnings
       Calculator.total_earnings].
  rewrite !tier_closed_form. unfold Calculator.bonus. lia.
Qed.

Lemma order_payment_bounds_witness :
  55 * 40 <= Notions.order_payment (Calculator.mk_earnings 2425 275 200 2900) 100 500
          <= 55 * 40 + 40 * Z.max 0 (40 - 30).
Proof.
  apply (order_payment_bounds 40 35 100 500
           (Calculator.mk_earnings 2425 275 200 2900)); [lia | reflexivity].
Defined.

(** X3. With the cash orders and the cash amounts unchanged, a larger
    total never pays less: every additional order raises the total
    earnings by at least 55. *)
Theorem more_orders_never_pay_less (t t' c m e : Z) (r r' : Calculator.earnings) :
  t <= t' ->
  Calculator.calculate_earnings t c m e = Ok r ->
  Calculator.calculate_earnings t' c m e = Ok r' ->
  Calculator.total_earnings r + 55 * (t' - t) <= Calculator.total_earnings r'.
Proof.
  intros Ht H H'.
  apply calculate_earnings_inv in H as (-> & _).
  apply calculate_earnings_inv in H' as (-> & _).
  cbn [Calculator.total_earnings].
  rewrite !tier_closed_form. unfold Calculator.bonus. lia.
Qed.

Lemma more_orders_never_pay_less_witness :
  2025 + 55 * (40 - 25) <= 3050.
Proof.
  exact (more_orders_never_pay_less 25 40 10 200 850
           (Calculator.mk_earnings 1200 825 0 2025)
           (Calculator.mk_earnings 1200 1650 200 3050)
           ltac:(lia) eq_refl eq_refl).
Defined.

(** X4. The 30-order threshold of the rate applies to each payment
    channel on its own, unlike the bonus: when neither channel exceeds 30
    orders every order is paid 55 even if the total exceeds 30, and a
    day's orders never pay more split over two channels than the same
    number of orders all paid online. *)
Theorem rate_threshold_is_per_channel (t c m e : Z) (r : Calculator.earnings) :
  0 <= c <= t ->
  Calculator.calculate_earnings t c m e = Ok r ->
  (c <= 30 -> t - c <= 30 ->
     Notions.order_payment r m e = 55 * t + Calculator.bonus_earnings r) /\
  (forall r0, Calculator.calculate_earnings t 0 m e = Ok r0 ->
     Notions.order_payment r m e <= Notions.order_payment r0 m e).
Proof.
  intros Hc H. apply calculate_earnings_inv in H as (-> & _).
  unfold Notions.order_payment.
  cbn [Calculator.bonus_earnings Calculator.total_earnings].
  split.
  - intros H1 H2. rewrite !tier_closed_form. lia.
  - intros r0 H0. apply calculate_earnings_inv in H0 as (-> & _).
    cbn [Calculator.total_earnings].
    rewrite !tier_closed_form. lia.
Qed.

Lemma rate_threshold_is_per_channel_witness :
  Notions.order_payment (Calculator.mk_earnings 1650 1650 600 3900) 0 0
    = 55 * 60 + 600 /\
  Notions.order_payment (Calculator.mk_earnings 1650 1650 600 3900) 0 0
    <= Notions.order_payment (Calculator.mk_earnings 0 3900 600 4500) 0 0.
Proof.
  destruct (rate_threshold_is_per_channel 60 30 0 0
              (Calculator.mk_earnings 1650 1650 600 3900) ltac:(lia) eq_refl)
    as [Hflat Hsplit].
  split; [apply Hflat; lia | apply Hsplit; reflexivity].
Defined.

(** X5. The calculator looks at the two cash amounts only through their
    difference: raising or lowering the morning and the evening cash by
    the same amount changes neither the outcome nor any amount. *)
Theorem only_the_cash_difference_matters (t c m e k : Z) :
  Calculator.calculate_earnings t c (m + k) (e + k)
  = Calculator.calculate_earnings t c m e.
Proof.
  unfold Calculator.calculate_earnings, Int4.sub.
  replace (e + k - (m + k)) with (e - m) by lia. reflexivity.
Qed.

(** X6. The calculator does not check [cash_orders <= total_orders]: if
    the cash orders exceed the total, a returned row carries the negative
    online earnings [(total_orders - cash_orders) * 55]. *)
Theorem excess_cash_orders_give_negative_online (t c m e : Z)
    (r : Calculator.earnings) :
  t < c ->
  Calculator.calculate_earnings t c m e = Ok r ->
  Calculator.online_earnings r = (t - c) * 55 /\
  Calculator.online_earnings r < 0.
Proof.
  intros Hc H. apply calculate_earnings_inv in H as (-> & _).
  cbn [Calculator.online_earnings]. rewrite tier_closed_form. lia.
Qed.

Lemma excess_cash_orders_give_negative_online_witness :
  Calculator.online_earnings (Calculator.mk_earnings 605 (-55) 0 550) = (10 - 11) * 55.
Proof.
  apply (excess_cash_orders_give_negative_online 10 11 0 0
           (Calculator.mk_earnings 605 (-55) 0 550)); [lia | reflexivity].
Defined.

(** X7. No shift of realistic size overflows: with at most ten million
    orders, of which the cash orders are a part, and at most a thousand
    million in the drawer in the evening, the calculator returns a row. *)
Theorem realistic_shift_returns (t c m e : Z) :
  0 <= c <= t -> t <= 10000000 ->
  0 <= m <= Int4.max_int -> 0 <= e <= 1000000000 ->
  exists r, Calculator.calculate_earnings t c m e = Ok r.
Proof.
  intros Hc Ht Hm He. eexists.
  apply calculate_earnings_returns; try assumption.
  - unfold Int4.max_int. lia.
  - unfold Calculator.derived_amounts_fit, Int4.max_int in *.
    rewrite !tier_closed_form. unfold Calculator.bonus. lia.
Qed.

Lemma realistic_shift_returns_witness :
  exists r, Calculator.calculate_earnings 10000000 4000000 0 1000000000 = Ok r.
Proof.
  apply realistic_shift_returns; unfold Int4.max_int; lia.
Defined.

(** ** The form schema: what it lets through *)

Lemma isInteger_iff (q : Q) :
  Form.isInteger (Form.Fin q) = true <-> exists n, (q == inject_Z n)%Q.
Proof.
  cbn [Form.isInteger]. rewrite Qeq_bool_iff. split.
  - intros H. exists (Qfloor q). symmetry. exact H.
  - intros [n Hn]. rewrite Hn at 1. rewrite Qfloor_Z. symmetry. exact Hn.
Qed.

Lemma not_negative_iff (q : Q) :
  Form.js_lt (Form.Fin q) (Form.Fin 0) = false <-> (0 <= q)%Q.
Proof.
  cbn [Form.js_lt Form.js_le]. rewrite negb_false_iff. apply Qle_bool_iff.
Qed.

Lemma whole_number_parses (f : Form.field) (x : Form.jsnum) (n : Z) :
  Notions.whole_number x n ->
  Form.number_int_min0 f x = (Form.valid, []) /\ Form.to_Z x = n.
Proof.
  destruct x as [| | | q]; cbn [Notions.whole_number]; try tauto.
  intros [Hq Hn]. split.
  - unfold Form.number_int_min0.
    assert (Hi : Form.isInteger (Form.Fin q) = true)
      by (apply isInteger_iff; now exists n).
    assert (Hl : Form.js_lt (Form.Fin q) (Form.Fin 0) = false).
    { apply not_negative_iff. rewrite Hq.
      change 0%Q with (inject_Z 0). now rewrite <- Zle_Qle. }
    now rewrite Hi, Hl.
  - cbn [Form.to_Z]. rewrite Hq. apply Qfloor_Z.
Qed.

Lemma no_issue_whole_number (f : Form.field) (x : Form.jsnum) :
  snd (Form.number_int_min0 f x) = [] ->
  Notions.whole_number x (Form.to_Z x).
Proof.
  rewrite number_issues.
  destruct x as [| | | q]; try discriminate.
  destruct (Form.isInteger (Form.Fin q)) eqn:Hi; [| discriminate].
  destruct (Form.js_lt (Form.Fin q) (Form.Fin 0)) eqn:Hl; [discriminate |].
  intros _. cbn [Notions.whole_number Form.to_Z].
  apply isInteger_iff in Hi as [n Hn]. apply not_negative_iff in Hl.
  assert (Hf : Qfloor q = n) by (rewrite Hn; apply Qfloor_Z).
  rewrite Hf. split; [exact Hn |].
  rewrite Hn in Hl. change 0%Q with (inject_Z 0) in Hl.
  now rewrite <- Zle_Qle in Hl.
Qed.

Lemma whole_numbers_compare (x y : Form.jsnum) (a b : Z) :
  Notions.whole_number x a -> Notions.whole_number y b ->
  (Form.js_le x y = true <-> a <= b).
Proof.
  destruct x as [| | | p], y as [| | | q]; cbn [Notions.whole_number]; try tauto.
  intros [Hp _] [Hq _]. cbn [Form.js_le].
  rewrite Qle_bool_iff, Hp, Hq, <- Zle_Qle. reflexivity.
Qed.

(** What the schema lets through, on the numbers the coercion yields. *)
Lemma formSchema_accepts_iff (r : Form.raw_values) (v : Form.values) :
  Form.formSchema r = inl v <->
  Notions.whole_number (Form.r_morning_cash r) (Form.morning_cash v) /\
  Notions.whole_number (Form.r_evening_cash r) (Form.evening_cash v) /\
  Notions.whole_number (Form.r_total_orders r) (Form.total_orders v) /\
  Notions.whole_number (Form.r_cash_orders r) (Form.cash_orders v) /\
  Notions.whole_number (Terms.tips r) (Form.online_tips v) /\
  Form.cash_orders v <= Form.total_orders v.
Proof.
  unfold Form.formSchema. rewrite object_parse_eq. split.
  - set (s := Form.merge _ _). set (found := (_ ++ _)%list).
    intros H.
    assert (Hok : found = [] /\
                  Form.js_le (Form.r_cash_orders r) (Form.r_total_orders r) = true /\
                  v = Form.values_of r).
    { destruct s; try discriminate;
        (destruct (Form.js_le _ _);
         [destruct found; [injection H as <-; auto | discriminate]
         | destruct found; discriminate]). }
    destruct Hok as (Hfound & Hle & ->). subst found.
    apply app_eq_nil in Hfound as [E1 Hfound].
    apply app_eq_nil in Hfound as [E2 Hfound].
    apply app_eq_nil in Hfound as [E3 Hfound].
    apply app_eq_nil in Hfound as [E4 E5].
    apply no_issue_whole_number in E1, E2, E3, E4, E5.
    cbn [Form.values_of Form.morning_cash Form.evening_cash Form.total_orders
         Form.cash_orders Form.online_tips].
    repeat split; try assumption.
    now apply (whole_numbers_compare _ _ _ _ E4 E3).
  - intros (W1 & W2 & W3 & W4 & W5 & Hle).
    pose proof (proj2 (whole_numbers_compare _ _ _ _ W4 W3) Hle) as Hjs.
    apply (whole_number_parses Form.f_morning_cash) in W1 as [P1 Z1].
    apply (whole_number_parses Form.f_evening_cash) in W2 as [P2 Z2].
    apply (whole_number_parses Form.f_total_orders) in W3 as [P3 Z3].
    apply (whole_number_parses Form.f_cash_orders) in W4 as [P4 Z4].
    apply (whole_number_parses Form.f_online_tips) in W5 as [P5 Z5].
    rewrite P1, P2, P3, P4, P5, Hjs. cbn.
    unfold Form.values_of. unfold Terms.tips in Z5.
    rewrite Z1, Z2, Z3, Z4, Z5. now destruct v.
Qed.

(** X8. The schema coerces what each field holds with [Number(...)] and
    lets a submission through exactly when each of the five coerced
    values is a non-negative whole number (an absent [online_tips]
    counting as 0) and the coerced cash orders do not exceed the coerced
    total; the values handed on are those numbers. So an empty field
    passes as 0 and a text that rounds to a whole double passes as that
    double; a value that coerces to a fraction, a negative number, an
    infinity or a non-number is refused, and there is no upper limit. *)
Theorem formSchema_typed_accepts_iff (t : Form.typed_values) (v : Form.values) :
  Form.formSchema_typed t = inl v <->
  Notions.whole_number (Form.Number (Form.t_morning_cash t)) (Form.morning_cash v) /\
  Notions.whole_number (Form.Number (Form.t_evening_cash t)) (Form.evening_cash v) /\
  Notions.whole_number (Form.Number (Form.t_total_orders t)) (Form.total_orders v) /\
  Notions.whole_number (Form.Number (Form.t_cash_orders t)) (Form.cash_orders v) /\
  Notions.whole_number
    (match Form.t_online_tips t with
     | Some x => Form.Number x
     | None => Form.Fin 0
     end) (Form.online_tips v) /\
  Form.cash_orders v <= Form.total_orders v.
Proof.
  unfold Form.formSchema_typed. rewrite formSchema_accepts_iff.
  unfold Terms.tips, Form.coerce.
  cbn [Form.r_morning_cash Form.r_evening_cash Form.r_total_orders
       Form.r_cash_orders Form.r_online_tips].
  destruct (Form.t_online_tips t); reflexivity.
Qed.

Lemma formSchema_typed_accepts_iff_witness :
  Form.formSchema_typed (Notions.typed "" "10.0000000000000001" "25" "1e1" "0x1F")
    = inl (Form.mk_values 0 10 25 10 31) /\
  (forall v, Form.formSchema_typed (Notions.typed "200" "850.5" "25" "10" "0")
             <> inl v).
Proof.
  split.
  - apply (proj2 (formSchema_typed_accepts_iff _ _)).
    vm_compute. repeat split; try reflexivity; discriminate.
  - intros v Hv.
    apply (proj1 (formSchema_typed_accepts_iff _ _)) in Hv.
    destruct Hv as (_ & Hq & _).
    cbn [Notions.typed Form.t_evening_cash] in Hq.
    assert (E : Form.Number (Form.text "850.5")
                = Form.Fin (7481077115387904 # 8796093022208))
      by (vm_compute; reflexivity).
    rewrite E in Hq. destruct Hq as [Hq _].
    unfold Qeq in Hq. cbn [Qnum Qden inject_Z] in Hq. lia.
Defined.

(** X9. A field that is not a number stops the parse of the whole object:
    the submission is refused with an "invalid type" issue on that field,
    and the comparison of cash orders with the total is not run, so no
    issue of that check is reported whatever the two counts are. *)
Theorem not_a_number_skips_the_order_check (r : Form.raw_values) :
  Notions.some_field_NaN r ->
  exists errors,
    Form.formSchema r = inr errors /\
    errors = snd (Form.object_parse r) /\
    ~ In (Form.mk_issue Form.f_cash_orders Form.custom) errors /\
    (Form.r_morning_cash r = Form.NaN ->
       In (Form.mk_issue Form.f_morning_cash Form.invalid_type) errors) /\
    (Form.r_evening_cash r = Form.NaN ->
       In (Form.mk_issue Form.f_evening_cash Form.invalid_type) errors) /\
    (Form.r_total_orders r = Form.NaN ->
       In (Form.mk_issue Form.f_total_orders Form.invalid_type) errors) /\
    (Form.r_cash_orders r = Form.NaN ->
       In (Form.mk_issue Form.f_cash_orders Form.invalid_type) errors) /\
    (Terms.tips r = Form.NaN ->
       In (Form.mk_issue Form.f_online_tips Form.invalid_type) errors).
Proof.
  intros Hnan.
  assert (Hab : fst (Form.object_parse r) = Form.aborted).
  { rewrite object_parse_eq. cbn [fst].
    destruct Hnan as [H | [H | [H | [H | H]]]]; rewrite H; cbn [Form.number_int_min0 fst];
      repeat match goal with
             | |- context [fst (Form.number_int_min0 ?f ?x)] =>
                 destruct (fst (Form.number_int_min0 f x))
             end; reflexivity. }
  assert (Hcustom : forall f x,
            ~ In (Form.mk_issue Form.f_cash_orders Form.custom)
                 (snd (Form.number_int_min0 f x))).
  { intros f x. rewrite number_issues.
    destruct x; cbn [In app];
      try destruct (Form.isInteger _); try destruct (Form.js_lt _ _);
      cbn [In app]; intros Hin;
      repeat (destruct Hin as [Hin | Hin]; [discriminate Hin |]); exact Hin. }
  exists (snd (Form.object_parse r)).
  split.
  - unfold Form.formSchema. destruct (Form.object_parse r) as [s found].
    cbn [fst] in Hab. now subst s.
  - split; [reflexivity |]. rewrite object_parse_eq. cbn [snd].
    split.
    + rewrite !in_app_iff. pose proof Hcustom as Hc.
      intros Hin. repeat (destruct Hin as [Hin | Hin]; [now apply Hc in Hin |]).
      now apply Hc in Hin.
    + repeat split; intros ->; rewrite !in_app_iff; cbn; tauto.
Qed.

Lemma not_a_number_skips_the_order_check_witness :
  Form.formSchema
    (Form.mk_raw (Form.Fin 0) (Form.Fin 0) Form.NaN (Form.Fin (inject_Z 11)) None)
  = inr [Form.mk_issue Form.f_total_orders Form.invalid_type].
Proof.
  destruct (not_a_number_skips_the_order_check
              (Form.mk_raw (Form.Fin 0) (Form.Fin 0) Form.NaN
                           (Form.Fin (inject_Z 11)) None))
    as (errors & H & -> & _).
  - unfold Notions.some_field_NaN. right. right. left. reflexivity.
  - exact H.
Defined.

(** ** Submissions that reach the store *)

(** ** Submissions the store refuses *)








(** ** The table under insert, list and delete *)

(** X13. The two keys of the table survive everything the dashboard
    does: if no two rows share an id and no two rows share account and
    date, the same holds after any submission and after any deletion. *)
Theorem store_keys_stay_unique (tz : Dashboard.zone) (session : string)
    (now server_now : Z)
    (fresh_id rid : string) (raw : Form.raw_values) (w : Dashboard.world) :
  Notions.keys_unique (Dashboard.tbl w) ->
  Notions.keys_unique
    (Dashboard.tbl (fst (Dashboard.handleSubmit tz session now server_now
                           fresh_id raw w))) /\
  Notions.keys_unique (Dashboard.tbl (fst (Dashboard.handleDelete session rid w))).
Proof.
  intros Hk. split.
  - now apply submission_keeps_keys_unique.
  - destruct Hk as [Hid Hday].
    unfold Dashboard.handleDelete, Store.delete. cbn [fst Dashboard.tbl].
    split; now apply filtered_keys_unique.
Qed.

Lemma store_keys_stay_unique_witness :
  Notions.keys_unique
    (Dashboard.tbl (fst (Dashboard.handleSubmit (Dashboard.fixed_zone 0) "denis"
                           0 0 "id-1"
                           (Terms.filled 200 850 25 10 0) Terms.empty_world))).
Proof.
  apply (store_keys_stay_unique (Dashboard.fixed_zone 0) "denis" 0 0 "id-1" "id-1"
           (Terms.filled 200 850 25 10 0) Terms.empty_world).
  split; constructor.
Defined.

Lemma insert_desc_perm (r : Store.row) (l : list Store.row) :
  Permutation (Store.insert_desc r l) (r :: l).
Proof.
  induction l as [| x l IH]; cbn [Store.insert_desc]; [reflexivity |].
  destruct (Store.date x <? Store.date r); [reflexivity |].
  rewrite IH. apply perm_swap.
Qed.

Lemma order_by_date_desc_perm (l : list Store.row) :
  Permutation (Store.order_by_date_desc l) l.
Proof.
  unfold Store.order_by_date_desc.
  induction l as [| r l IH]; cbn [fold_right]; [reflexivity |].
  rewrite insert_desc_perm. now constructor.
Qed.

(** X14. Listing returns every row the select policy lets through, each
    as often as it is stored and nothing else, newest date first, and
    leaves the table as it is. *)
Theorem fetched_list_is_sorted_selection (session : string) (w : Dashboard.world) :
  Permutation (snd (Dashboard.fetchEarnings session w))
              (filter (Store.policy_select session) (Dashboard.tbl w)) /\
  Dashboard.descending (snd (Dashboard.fetchEarnings session w)) /\
  Dashboard.tbl (fst (Dashboard.fetchEarnings session w)) = Dashboard.tbl w.
Proof.
  split; [| split].
  - unfold Dashboard.fetchEarnings, Store.select_order_by_date_desc. cbn [snd].
    apply order_by_date_desc_perm.
  - apply fetched_list_descending.
  - reflexivity.
Qed.




(** X17. Deleting is idempotent, and deleting an id that no row carries,
    or that only rows of other accounts carry, leaves the table
    untouched. *)
Theorem delete_again_changes_nothing (session session' rid : string)
    (w : Dashboard.world) :
  Dashboard.tbl (fst (Dashboard.handleDelete session' rid
                        (fst (Dashboard.handleDelete session rid w))))
    = Dashboard.tbl (fst (Dashboard.handleDelete session rid w)) /\
  ((forall x, In x (Dashboard.tbl w) -> Store.id x = rid ->
              Store.user_id x <> "denis"%string) ->
   Dashboard.tbl (fst (Dashboard.handleDelete session rid w)) = Dashboard.tbl w).
Proof.
  unfold Dashboard.handleDelete, Store.delete, Store.policy_delete.
  cbn [fst Dashboard.tbl]. split.
  - induction (Dashboard.tbl w) as [| x l IH]; cbn [filter]; [reflexivity |].
    destruct (negb _) eqn:E; [| exact IH].
    cbn [filter]. rewrite E. now f_equal.
  - intros H. induction (Dashboard.tbl w) as [| x l IH]; cbn [filter]; [reflexivity |].
    assert (E : (Store.user_id x =? "denis")%string && (Store.id x =? rid)%string = false).
    { apply andb_false_iff.
      destruct (String.eqb_spec (Store.id x) rid) as [Hid | Hid]; [| now right].
      left. apply String.eqb_neq. apply (H x); [now left | exact Hid]. }
    rewrite E. cbn [negb]. f_equal. apply IH.
    intros y Hy. apply H. now right.
Qed.

Lemma delete_again_changes_nothing_witness :
  Dashboard.tbl (fst (Dashboard.handleDelete "denis" "id-9"
                        (Dashboard.mk_world
                           [Terms.record_of "id-1" "denis" 3;
                            Terms.record_of "id-9" "eve" 4] [])))
  = [Terms.record_of "id-1" "denis" 3; Terms.record_of "id-9" "eve" 4].
Proof.
  apply (proj2 (delete_again_changes_nothing "denis" "denis" "id-9"
                  (Dashboard.mk_world
                     [Terms.record_of "id-1" "denis" 3;
                      Terms.record_of "id-9" "eve" 4] []))).
  cbn. intros x [<- | [<- | []]]; cbn; intros H; discriminate.
Defined.

(** ** The chart against the local calendar *)

Lemma fixed_zone_offsets_within_a_day (offset : Z) :
  - Dashboard.ms_per_day <= offset <= Dashboard.ms_per_day ->
  Notions.offsets_within_a_day (Dashboard.fixed_zone offset).
Proof.
  intros H l. unfold Dashboard.fixed_zone. cbn [Dashboard.utc_of_local]. lia.
Qed.

Lemma prague_offsets_within_a_day :
  Notions.offsets_within_a_day Terms.prague_autumn_2025.
Proof.
  intros l. unfold Terms.prague_autumn_2025, Dashboard.ms_per_day.
  cbn [Dashboard.utc_of_local].
  destruct (l <? 1761440400000 + 7200000); lia.
Qed.

(** The threshold of the chart lies between six and eight days before
    the local time of the instant. *)
Lemma subDays_week_bounds (tz : Dashboard.zone) (now : Z) :
  Notions.offsets_within_a_day tz ->
  Dashboard.local_time tz now - 8 * Dashboard.ms_per_day
    <= Dashboard.subDays tz now 7
    <= Dashboard.local_time tz now - 6 * Dashboard.ms_per_day.
Proof.
  intros Htz. unfold Dashboard.subDays.
  specialize (Htz (Dashboard.local_time tz now - 7 * Dashboard.ms_per_day)).
  unfold Dashboard.ms_per_day in *. lia.
Qed.

Lemma local_day_bounds (tz : Dashboard.zone) (now : Z) :
  Dashboard.date_ms (Dashboard.local_day tz now) <= Dashboard.local_time tz now
    < Dashboard.date_ms (Dashboard.local_day tz now + 1).
Proof. now apply on_local_day_iff. Qed.

(** X19. Counted in the browser's own calendar days, with a time zone
    within a day of UTC, the chart always shows the fetched records of
    today and of the five days before, shows every record dated in the
    future, and never shows a record older than eight days. *)
Theorem chart_window_in_local_days (tz : Dashboard.zone) (now : Z)
    (earnings : list Store.row) :
  Notions.offsets_within_a_day tz ->
  (forall e, In e earnings ->
     Dashboard.local_day tz now - 5 <= Store.date e ->
     In e (Dashboard.charted tz now earnings)) /\
  (forall e, In e (Dashboard.charted tz now earnings) ->
     In e earnings /\ Dashboard.local_day tz now - 8 <= Store.date e).
Proof.
  intros Htz.
  pose proof (subDays_week_bounds tz now Htz) as Hs.
  pose proof (local_day_bounds tz now) as Hl.
  unfold Dashboard.charted, Dashboard.date_ms, Dashboard.ms_per_day in *. split.
  - intros e Hin Hd. rewrite <- in_rev, filter_In, in_last_week_iff.
    split; [exact Hin |]. unfold Dashboard.date_ms, Dashboard.ms_per_day. lia.
  - intros e Hin. rewrite <- in_rev, filter_In, in_last_week_iff in Hin.
    destruct Hin as [Hin Hd]. split; [exact Hin |].
    unfold Dashboard.date_ms, Dashboard.ms_per_day in Hd. lia.
Qed.

Lemma chart_window_in_local_days_witness :
  In (Terms.record_of "a" "denis" 96)
     (Dashboard.charted (Dashboard.fixed_zone 7200000)
        (100 * Dashboard.ms_per_day + 82800000)
        [Terms.record_of "b" "denis" 101; Terms.record_of "a" "denis" 96]) /\
  In (Terms.record_of "a" "denis" 20383)
     (Dashboard.charted Terms.prague_autumn_2025 1761525000000
        [Terms.record_of "b" "denis" 20388; Terms.record_of "a" "denis" 20383]).
Proof.
  split.
  - apply (proj1 (chart_window_in_local_days (Dashboard.fixed_zone 7200000)
                    (100 * Dashboard.ms_per_day + 82800000)
                    [Terms.record_of "b" "denis" 101; Terms.record_of "a" "denis" 96]
                    (fixed_zone_offsets_within_a_day 7200000
                       ltac:(unfold Dashboard.ms_per_day; lia)))).
    + right. now left.
    + cbn. lia.
  - apply (proj1 (chart_window_in_local_days Terms.prague_autumn_2025
                    1761525000000
                    [Terms.record_of "b" "denis" 20388;
                     Terms.record_of "a" "denis" 20383]
                    prague_offsets_within_a_day)).
    + right. now left.
    + cbn. lia.
Defined.

(** X20. Every stored record that the select policy shows, dated today or
    within the five local days before, or later, is in the weekly chart
    built from the list that any session fetches, the browser's time zone
    being within a day of UTC: its bar carries the stored total, and the
    stored cash earnings plus online tips. *)
Theorem recent_record_is_charted (tz : Dashboard.zone) (format_d_M : Z -> string)
    (session : string) (w : Dashboard.world) (now : Z) (r : Store.row) :
  Notions.offsets_within_a_day tz ->
  In r (Dashboard.tbl w) ->
  Store.policy_select session r = true ->
  Dashboard.local_day tz now - 5 <= Store.date r ->
  In r (Dashboard.charted tz now (snd (Dashboard.fetchEarnings session w))) /\
  In (Dashboard.mk_point (format_d_M (Dashboard.date_ms (Store.date r)))
        (Store.total_earnings r) (Store.cash_earnings r + Store.online_tips r))
     (Dashboard.chartData tz format_d_M now
        (snd (Dashboard.fetchEarnings session w))).
Proof.
  intros Htz Hin Hvisible Hrecent.
  assert (Hlisted : In r (snd (Dashboard.fetchEarnings session w))).
  { unfold Dashboard.fetchEarnings, Store.select_order_by_date_desc. cbn [snd].
    apply (Permutation_in _ (Permutation_sym (order_by_date_desc_perm _))).
    apply filter_In. split; assumption. }
  assert (Hcharted : In r (Dashboard.charted tz now
                             (snd (Dashboard.fetchEarnings session w)))).
  { pose proof (subDays_week_bounds tz now Htz) as Hs.
    pose proof (local_day_bounds tz now) as Hl.
    unfold Dashboard.charted.
    rewrite <- in_rev, filter_In, in_last_week_iff. split; [exact Hlisted |].
    unfold Dashboard.date_ms, Dashboard.ms_per_day in *. lia. }
  split; [exact Hcharted |].
  unfold Dashboard.chartData. rewrite <- map_rev.
  change (rev (filter (Dashboard.in_last_week tz now)
                 (snd (Dashboard.fetchEarnings session w))))
    with (Dashboard.charted tz now (snd (Dashboard.fetchEarnings session w))).
  apply in_map_iff. exists r. split; [reflexivity | exact Hcharted].
Qed.

Lemma recent_record_is_charted_witness :
  In (Dashboard.mk_point "20. 10." 2025 1230)
     (Dashboard.chartData Terms.prague_autumn_2025 (fun _ => "20. 10."%string)
        1761088500000
        (snd (Dashboard.fetchEarnings Notions.some_session
                (Dashboard.mk_world
                   [Store.mk_row "id-1" "denis" 20381 200 850 25 10 30
                      1200 825 0 2025 0 0] [])))).
Proof.
  apply (recent_record_is_charted Terms.prague_autumn_2025
           (fun _ => "20. 10."%string) Notions.some_session
           (Dashboard.mk_world
              [Store.mk_row "id-1" "denis" 20381 200 850 25 10 30
                 1200 825 0 2025 0 0] [])
           1761088500000
           (Store.mk_row "id-1" "denis" 20381 200 850 25 10 30
              1200 825 0 2025 0 0)
           prague_offsets_within_a_day).
  - now left.
  - reflexivity.
  - cbn. lia.
Defined.

(** ** The root component *)

Lemma run_snoc (evs : list App.event) (ev : App.event) :
  App.run (evs ++ [ev]) = App.step (App.run evs) ev.
Proof. unfold App.run. now rewrite fold_left_app. Qed.

Lemma existsb_snoc {A : Type} (p : A -> bool) (l : list A) (x : A) :
  existsb p (l ++ [x]) = existsb p l || p x.
Proof. rewrite existsb_app. cbn. now rewrite orb_false_r. Qed.

(** X21. What the root component shows after any sequence of answers and
    notifications: the loading screen until [getSession] has answered,
    however many sign-in notifications arrived before; from then on the
    sign-in page or the dashboard of the user of the latest session
    received, whichever of the two sources delivered it -- so a late
    "no session" answer of [getSession] replaces a session that a
    notification had already set. *)
Theorem view_after_events (evs : list App.event) :
  App.render (App.run evs) =
  if existsb App.is_resolution evs
  then match last (map App.session_of evs) None with
       | None => App.auth_page
       | Some u => App.dashboard u
       end
  else App.loading_screen.
Proof.
  assert (H : App.loading (App.run evs) = negb (existsb App.is_resolution evs) /\
              App.session (App.run evs) = last (map App.session_of evs) None).
  { induction evs as [| ev evs IH] using rev_ind; [split; reflexivity |].
    destruct IH as [IHl IHs].
    rewrite run_snoc, existsb_snoc, map_app. cbn [map]. rewrite last_last.
    destruct ev as [s | s]; cbn [App.step App.loading App.session
                                 App.is_resolution App.session_of map].
    - rewrite orb_true_r. split; reflexivity.
    - rewrite orb_false_r. split; [exact IHl | reflexivity]. }
  destruct H as [Hl Hs]. unfold App.render. rewrite Hl, Hs.
  destruct (existsb App.is_resolution evs); reflexivity.
Qed.
